(** * hack/visualize-benchmarks.py: charts from a benchmark comparison report

    A shallow embedding of the script and the properties of its
    report-to-chart transformation.

    Modelling conventions.
    - JSON numbers are finite (the producer cannot emit NaN or
      infinities).  A number of the document is a rational [Qc], the
      exact value of the Python int or float; Python compares ints and
      floats exactly, so [<] is the order of the rationals.
    - Arithmetic on the data is binary64.  [sum] and [/] in the
      category rollup and [+] in the position of a value label round
      to nearest-even at every step, as CPython's float operations do,
      and [sum] adds from the left, starting from 0 (CPython up to
      3.11; later versions compensate the rounding of the partial
      sums).  A number enters this arithmetic as the float of its
      value; for integers below 2^53 in magnitude [sum] and [/] cannot
      tell an int from the float.  Results may be infinite.
    - Arithmetic on the layout constants (the positions [i - width / 2]
      and [i - 0.15], the canvas sizes) is kept exact.
    - Python strings are [string], the UTF-8 bytes of the text; [<] on
      strings is the lexicographic order, which on UTF-8 bytes is the
      order of the code points.
    - The report is read into typed records: documents with missing or
      mistyped fields are outside the model.
    - A [dict] is an association list in insertion order.
    - Indexing, dict lookup and true division can raise; they return
      [option], and [main] turns [None] into an uncaught exception.
    - The local variables of [main] that hold the data (the report,
      the lists prepared from it and what each chart computes) are a
      store, handed from one renderer to the next.
    - The effects of [main] (stdout, directory creation, image files,
      process exit) are an event trace, interpreted on a small model of
      the file system.  matplotlib and the operating system are assumed
      not to raise.
    - matplotlib draws string positions on a categorical axis, see
      [category_rows]. *)

From stdpp Require Import base numbers list strings pretty gmap sorting.
From Stdlib Require Import Ascii QArith Qcanon.
From Stdlib Require Import OrdersEx Floats.SpecFloat.

Local Open Scope string_scope.
Local Open Scope Qc_scope.

(** ** Numbers *)

Definition qc (q : Q) : Qc := Q2Qc q.

(** [a < b] on numbers. *)
Definition num_lt (a b : Qc) : bool := bool_decide (a < b).

(** [max(a, b)]: the first argument unless the second is larger. *)
Definition py_max (a b : Qc) : Qc := if num_lt a b then b else a.

(** [len(l)] as a Python int. *)
Definition len {A} (l : list A) : Z := Z.of_nat (length l).

(** [range(n)]. *)
Definition range (n : Z) : list Z := seqZ 0 n.

(** *** binary64 *)

(** [float(z)] for an int. *)
Definition b64 (z : Z) : spec_float := binary_normalize 53 1024 z 0 false.

(** The float of a number: the binary64 value nearest to [q] (ties to
    even), which is [q] itself when [q] is a binary64 number. *)
Definition to_float (q : Qc) : spec_float :=
  let int z := match z with
               | Z0 => S754_zero false
               | Zpos p => S754_finite false p 0
               | Zneg p => S754_finite true p 0
               end in
  SFdiv 53 1024 (int (Qnum q)) (int (Zpos (Qden q))).

(** [sum(l)]: left fold of float [+] starting from 0. *)
Definition sum (l : list Qc) : spec_float :=
  foldl (λ acc v, SFadd 53 1024 acc (to_float v)) (b64 0) l.

(** [x / n] for a float and an int divisor; raises ZeroDivisionError
    on 0. *)
Definition truediv (x : spec_float) (n : Z) : option spec_float :=
  if decide (n = 0%Z) then None else Some (SFdiv 53 1024 x (b64 n)).

(** ** [str.replace] *)

Module str.

(** Left-to-right scan; [skip] counts the characters of a match that
    remain to be dropped. *)
Fixpoint replace_from (old new : string) (skip : nat) (s : string) : string :=
  match s with
  | EmptyString => EmptyString
  | String c s' =>
      match skip with
      | S k => replace_from old new k s'
      | O =>
          if String.prefix old s
          then new +:+ replace_from old new (String.length old - 1) s'
          else String c (replace_from old new 0 s')
      end
  end.

(** With an empty pattern Python inserts [new] around every character. *)
Fixpoint replace_empty (new : string) (s : string) : string :=
  match s with
  | EmptyString => new
  | String c s' => new +:+ String c (replace_empty new s')
  end.

Definition replace (old new s : string) : string :=
  match old with
  | EmptyString => replace_empty new s
  | _ => replace_from old new 0 s
  end.

End str.

(** ** [sorted]

    Python's [sorted(iterable, key=...)] computes every key once, then
    sorts stably comparing keys with [<] only, and returns a new list.
    The model is the stable insertion sort on the decorated list. *)

Section Sorted.
Context {K A : Type} (ltb : K → K → bool).

(** [x] came before every element of [l] in the input: it goes in
    front of the first element whose key is not smaller than its own. *)
Fixpoint insert_stable (x : K * A) (l : list (K * A)) : list (K * A) :=
  match l with
  | [] => [x]
  | y :: l' => if ltb y.1 x.1 then y :: insert_stable x l' else x :: l
  end.

Definition sort_decorated (l : list (K * A)) : list (K * A) :=
  foldr insert_stable [] l.

Definition decorate (key : A → option K) (l : list A) : option (list (K * A)) :=
  mapM (λ a, k ← key a; Some (k, a)) l.

Definition sorted_key (key : A → option K) (l : list A) : option (list A) :=
  d ← decorate key l; Some ((sort_decorated d).*2).
End Sorted.

(** [sorted(l)] without a key. *)
Definition sorted {A} (ltb : A → A → bool) (l : list A) : list A :=
  (sort_decorated ltb ((λ a, (a, a)) <$> l)).*2.

(** ** [dict] in insertion order *)

Module dict.
Definition t (V : Type) : Type := list (string * V).

Fixpoint get {V} (d : t V) (k : string) : option V :=
  match d with
  | [] => None
  | (k', v) :: d' => if decide (k' = k) then Some v else get d' k
  end.

(** [d[k] = v]: overwrite in place, or append a new key. *)
Fixpoint set {V} (d : t V) (k : string) (v : V) : t V :=
  match d with
  | [] => [(k, v)]
  | (k', v') :: d' =>
      if decide (k' = k) then (k', v) :: d' else (k', v') :: set d' k v
  end.

Definition keys {V} (d : t V) : list string := d.*1.
End dict.

(** ** The report *)

Record Entry := mkEntry {
  name : string;
  category : string;
  old_ns_per_op : Qc;
  new_ns_per_op : Qc;
  ns_per_op_change_pct : Qc;
  old_bytes_per_op : Qc;
  new_bytes_per_op : Qc;
  old_allocs_per_op : Qc;
  new_allocs_per_op : Qc
}.

Record Summary := mkSummary {
  new_wins : Z;
  old_wins : Z;
  ties : Z;
  avg_ns_per_op_change_pct : Qc
}.

Record Report := mkReport {
  old_label : string;
  new_label : string;
  entries : list Entry;
  summary : Summary
}.

(** ** Prepared data (lines 67-79) *)

Definition names (es : list Entry) : list string :=
  (λ e, str.replace "Benchmark" "" (name e)) <$> es.
Definition old_ns (es : list Entry) : list Qc := old_ns_per_op <$> es.
Definition new_ns (es : list Entry) : list Qc := new_ns_per_op <$> es.
Definition pct_changes (es : list Entry) : list Qc := ns_per_op_change_pct <$> es.
Definition categories (es : list Entry) : list string := category <$> es.

Definition color_old : string := "#4A90D9".
Definition color_new : string := "#E74C3C".
Definition color_better : string := "#27AE60".
Definition color_worse : string := "#E74C3C".
Definition color_neutral : string := "#95A5A6".

(** ** Chart 2 data (lines 120-126) *)

(** [sorted(range(len(pct_changes)), key=lambda i: pct_changes[i])] *)
Definition sort_by_change (pct_changes : list Qc) : option (list Z) :=
  sorted_key num_lt (λ i : Z, pct_changes !! Z.to_nat i) (range (len pct_changes)).

(** [[l[i] for i in indices]] *)
Definition select {A} (l : list A) (indices : list Z) : option (list A) :=
  mapM (λ i : Z, l !! Z.to_nat i) indices.

Definition sorted_indices (es : list Entry) : option (list Z) :=
  sort_by_change (pct_changes es).

Definition sorted_names (es : list Entry) : option (list string) :=
  ix ← sorted_indices es; select (names es) ix.

Definition sorted_changes (es : list Entry) : option (list Qc) :=
  ix ← sorted_indices es; select (pct_changes es) ix.

Definition bar_colors (sorted_changes : list Qc) : list string :=
  (λ c, if num_lt c (- qc 1) then color_better
        else if num_lt (qc 1) c then color_worse else color_neutral)
    <$> sorted_changes.

(** ** Chart 3 data (lines 147-150) *)

Definition old_bytes (es : list Entry) : list Qc := old_bytes_per_op <$> es.
Definition new_bytes (es : list Entry) : list Qc := new_bytes_per_op <$> es.
Definition old_allocs (es : list Entry) : list Qc := old_allocs_per_op <$> es.
Definition new_allocs (es : list Entry) : list Qc := new_allocs_per_op <$> es.

(** ** Chart 4 data (lines 213-226) *)

(** One iteration of the loop over [entries]. *)
Definition rollup_step (acc : dict.t (list Qc) * dict.t Z) (e : Entry)
  : dict.t (list Qc) * dict.t Z :=
  let cat := category e in
  (dict.set acc.1 cat (default [] (dict.get acc.1 cat) ++ [ns_per_op_change_pct e])%list,
   dict.set acc.2 cat (default 0%Z (dict.get acc.2 cat) + 1)%Z).

Definition rollup (es : list Entry) : dict.t (list Qc) * dict.t Z :=
  foldl rollup_step ([], []) es.

Definition cat_changes (es : list Entry) : dict.t (list Qc) := (rollup es).1.
Definition cat_counts (es : list Entry) : dict.t Z := (rollup es).2.

Definition cat_names (es : list Entry) : list string :=
  sorted String.ltb (dict.keys (cat_changes es)).

(** [[sum(cat_changes[c]) / len(cat_changes[c]) for c in cat_names]] *)
Definition averages (cat_changes : dict.t (list Qc)) (cat_names : list string)
  : option (list spec_float) :=
  mapM (λ c, vs ← dict.get cat_changes c; truediv (sum vs) (len vs)) cat_names.

(** [[f"{c} (n={cat_counts[c]})" for c in cat_names]] *)
Definition row_labels (cat_counts : dict.t Z) (cat_names : list string)
  : option (list string) :=
  mapM (λ c, n ← dict.get cat_counts c; Some (c +:+ " (n=" +:+ pretty n +:+ ")"))
       cat_names.

Definition cat_avgs (es : list Entry) : option (list spec_float) :=
  averages (cat_changes es) (cat_names es).

Definition cat_labels (es : list Entry) : option (list string) :=
  row_labels (cat_counts es) (cat_names es).

Definition cat_colors (cat_avgs : list spec_float) : list string :=
  (λ v, if SFltb v (b64 (-1)) then color_better
        else if SFltb (b64 1) v then color_worse else color_neutral)
    <$> cat_avgs.

(** ** [os.path] (POSIX flavour) *)

Module ospath.
Definition is_sep (c : ascii) : bool := bool_decide (c = "/"%char).

(** [p[:p.rfind('/') + 1]]: the part of [p] up to and including its
    last slash. *)
Fixpoint head_to_last_sep (p : string) : string :=
  match p with
  | EmptyString => EmptyString
  | String c p' =>
      match head_to_last_sep p' with
      | EmptyString => if is_sep c then String c EmptyString else EmptyString
      | h => String c h
      end
  end.

Fixpoint all_sep (s : string) : bool :=
  match s with
  | EmptyString => true
  | String c s' => is_sep c && all_sep s'
  end.

(** [s.rstrip('/')]. *)
Fixpoint rstrip_sep (s : string) : string :=
  match s with
  | EmptyString => EmptyString
  | String c s' =>
      match rstrip_sep s' with
      | EmptyString => if is_sep c then EmptyString else String c EmptyString
      | r => String c r
      end
  end.

Definition dirname (p : string) : string :=
  let head := head_to_last_sep p in
  if all_sep head then head else rstrip_sep head.

Fixpoint ends_with_sep (s : string) : bool :=
  match s with
  | EmptyString => false
  | String c EmptyString => is_sep c
  | String _ s' => ends_with_sep s'
  end.

(** [os.path.join(a, b)]. *)
Definition join (a b : string) : string :=
  match b with
  | String c _ =>
      if is_sep c then b
      else if bool_decide (a = EmptyString) || ends_with_sep a then a +:+ b
      else a +:+ "/" +:+ b
  | EmptyString =>
      if bool_decide (a = EmptyString) || ends_with_sep a then a else a +:+ "/"
  end.

(** The directories [os.makedirs(p)] makes sure exist: [p] and every
    proper prefix of [p] that ends right before a slash. *)
Fixpoint dirs_upto (pre : string) (p : string) : list string :=
  match p with
  | EmptyString => [pre]
  | String c p' =>
      ((if is_sep c && negb (bool_decide (pre = EmptyString)) then [pre] else [])
         ++ dirs_upto (pre +:+ String c EmptyString) p')%list
  end.
End ospath.

(** ** What is handed to matplotlib *)

(** A piece of an f-string: literal text or a formatted number (a
    number of the document, or a float computed by the script). *)
Inductive Piece :=
| Lit (s : string)
| Fmt (spec : string) (v : Qc)
| FmtF (spec : string) (v : spec_float).

Definition fstring : Type := list Piece.

(** [barh_labelled] and [barh_labelled_f] are the same call,
    [ax.barh(labels, values, color=..., alpha=...)], on numbers of the
    document and on computed floats. *)
Inductive Call :=
| bar (x height : list Qc) (width : Qc) (label color : string) (alpha : Qc)
| barh (y width : list Qc) (height : Qc) (label color : string) (alpha : Qc)
| barh_labelled (y : list string) (width : list Qc) (color : list string) (alpha : Qc)
| barh_labelled_f (y : list string) (width : list spec_float) (color : list string)
                  (alpha : Qc)
| axvline (x : Qc) (color : string) (linewidth : Qc)
| set_xlabel (s : string)
| set_ylabel (s : string)
| set_title (s : string)
| set_xticks (ticks : list Z)
| set_xticklabels (labels : list string) (rotation : Z) (ha : string) (fontsize : Z)
| set_yticks (ticks : list Z)
| set_yticklabels (labels : list string) (fontsize : Z)
| legend (fontsize : option Z)
| grid (axis : string) (alpha : Qc)
| set_yscale (scale : string)
| text (x : spec_float) (y : Z) (s : fstring) (va : string) (fontsize : Z)
       (fontweight : option string).

(** A figure: its size, the calls made on each of its axes, and the
    figure-level title if any. *)
Record Figure := mkFigure {
  figsize : Qc * Qc;
  axes : list (list Call);
  suptitle : option (string * Z)
}.

(** Where matplotlib draws the bars of [barh(labels, ...)]: the labels
    are positions on a categorical axis, on which every distinct string
    gets the next free row in order of first appearance, and a repeated
    string the row of its first appearance. *)
Fixpoint index_of (y : string) (l : list string) : option nat :=
  match l with
  | [] => None
  | x :: l' => if decide (x = y) then Some 0%nat else S <$> index_of y l'
  end.

Fixpoint rows_from (seen : list string) (ys : list string) : list nat :=
  match ys with
  | [] => []
  | y :: ys' =>
      match index_of y seen with
      | Some k => k :: rows_from seen ys'
      | None => length seen :: rows_from (seen ++ [y])%list ys'
      end
  end.

Definition category_rows (ys : list string) : list nat := rows_from [] ys.

(** [v >= 0] *)
Definition num_ge0 (v : Qc) : bool := bool_decide (0 ≤ v).

(** *** Chart 1: ns/op comparison (lines 82-116) *)

Definition width : Qc := qc 0.35.

Definition comparison_chart (old_label new_label : string) (names : list string)
    (old_ns new_ns : list Qc) : Figure :=
  let x := range (len names) in
  {| figsize := (py_max (qc 14) (Qc_of_Z (len names) * qc 0.8), qc 8);
     axes := [[
       bar ((λ i, Qc_of_Z i - width / qc 2) <$> x) old_ns width
           old_label color_old (qc 0.85);
       bar ((λ i, Qc_of_Z i + width / qc 2) <$> x) new_ns width
           new_label color_new (qc 0.85);
       set_xlabel "Benchmark";
       set_ylabel "ns/op (lower is better)";
       set_title ("Performance Comparison: " +:+ old_label +:+ " vs " +:+ new_label);
       set_xticks x;
       set_xticklabels names 45 "right" 7;
       legend None;
       grid "y" (qc 0.3);
       set_yscale "log" ]];
     suptitle := None |}.

(** *** Chart 2: percent change, sorted (lines 120-144) *)

(** The loop of lines 136-138 (with its constants as parameters). *)
Definition value_labels (offset : Qc) (fontsize : Z) (fontweight : option string)
    (values : list Qc) : list Call :=
  imap (λ i v,
          text (SFadd 53 1024 (to_float v)
                      (to_float (if num_ge0 v then offset else - offset)))
               (Z.of_nat i)
               [Fmt "+.1f" v; Lit "%"] "center" fontsize fontweight)
       values.

Definition delta_chart (old_label new_label : string) (names sorted_names : list string)
    (sorted_changes : list Qc) (bar_colors : list string) : Figure :=
  {| figsize := (qc 12, py_max (qc 6) (Qc_of_Z (len names) * qc 0.35));
     axes := [([
       barh_labelled sorted_names sorted_changes bar_colors (qc 0.85);
       axvline 0 "black" (qc 0.8);
       set_xlabel "% Change (negative = improvement)";
       set_title ("Performance Change: " +:+ old_label +:+ " -> " +:+ new_label);
       grid "x" (qc 0.3) ]
       ++ value_labels (qc 0.5) 7 None (zip sorted_changes sorted_names).*1)%list ];
     suptitle := None |}.

(** *** Chart 3: allocations, input order (lines 147-210) *)

Definition alloc_panel (old_label new_label : string) (names : list string)
    (olds news : list Qc) (xlabel title : string) : list Call :=
  let y_pos := range (len names) in
  [ barh ((λ i, Qc_of_Z i - qc 0.15) <$> y_pos) olds (qc 0.3)
         old_label color_old (qc 0.85);
    barh ((λ i, Qc_of_Z i + qc 0.15) <$> y_pos) news (qc 0.3)
         new_label color_new (qc 0.85);
    set_yticks y_pos;
    set_yticklabels names 7;
    set_xlabel xlabel;
    set_title title;
    legend (Some 8%Z);
    grid "x" (qc 0.3) ].

Definition allocation_chart (old_label new_label : string) (names : list string)
    (old_bytes new_bytes old_allocs new_allocs : list Qc) : Figure :=
  {| figsize := (qc 18, py_max (qc 6) (Qc_of_Z (len names) * qc 0.3));
     axes := [
       alloc_panel old_label new_label names old_bytes new_bytes
                   "B/op (lower is better)" "Bytes per Operation";
       alloc_panel old_label new_label names old_allocs new_allocs
                   "allocs/op (lower is better)" "Allocations per Operation" ];
     suptitle := Some ("Memory Allocation Comparison: "
                         +:+ old_label +:+ " vs " +:+ new_label, 14%Z) |}.

(** *** Chart 4: category summary (lines 213-243) *)

(** The loop of lines 235-237, on the computed means. *)
Definition mean_labels (offset : Qc) (fontsize : Z) (fontweight : option string)
    (values : list spec_float) : list Call :=
  imap (λ i v,
          text (SFadd 53 1024 v
                      (to_float (if SFleb (b64 0) v then offset else - offset)))
               (Z.of_nat i)
               [FmtF "+.1f" v; Lit "%"] "center" fontsize fontweight)
       values.

Definition category_chart (old_label new_label : string) (cat_names cat_labels : list string)
    (cat_avgs : list spec_float) (cat_colors : list string) : Figure :=
  {| figsize := (qc 10, py_max (qc 4) (Qc_of_Z (len cat_names) * qc 0.6));
     axes := [([
       barh_labelled_f cat_labels cat_avgs cat_colors (qc 0.85);
       axvline 0 "black" (qc 0.8);
       set_xlabel "Average % Change (negative = improvement)";
       set_title ("Performance Change by Category: "
                    +:+ old_label +:+ " -> " +:+ new_label);
       grid "x" (qc 0.3) ]
       ++ mean_labels (qc 0.3) 9 (Some "bold") cat_avgs)%list ];
     suptitle := None |}.

(** *** The four figures of a report *)

Definition ns_per_op_figure (r : Report) : Figure :=
  let es := entries r in
  comparison_chart (old_label r) (new_label r) (names es) (old_ns es) (new_ns es).

Definition pct_change_figure (r : Report) : option Figure :=
  let es := entries r in
  sn ← sorted_names es;
  sc ← sorted_changes es;
  Some (delta_chart (old_label r) (new_label r) (names es) sn sc (bar_colors sc)).

Definition allocs_figure (r : Report) : Figure :=
  let es := entries r in
  allocation_chart (old_label r) (new_label r) (names es)
                   (old_bytes es) (new_bytes es) (old_allocs es) (new_allocs es).

Definition category_figure (r : Report) : option Figure :=
  let es := entries r in
  avgs ← cat_avgs es;
  labels ← cat_labels es;
  Some (category_chart (old_label r) (new_label r) (cat_names es) labels avgs
                       (cat_colors avgs)).

(** ** Effects of [main] *)

Inductive exn :=
| LoadError      (* [open] or [json.load] failed *)
| IndexError     (* a list index out of range while preparing chart 2 *)
| RollupError.   (* KeyError or ZeroDivisionError while preparing chart 4 *)

Inductive Event :=
| Print (line : fstring)
| Makedirs (path : string)
| Savefig (path : string) (fig : Figure) (dpi : Z).

(** How a run stops early. *)
Inductive Stop :=
| SysExit (code : Z)
| Uncaught (e : exn).

(** A computation emits events, then either stops or yields a value. *)
Definition Run (A : Type) : Type := list Event * (Stop + A).

Definition ret {A} (a : A) : Run A := ([], inr a).

Definition bind {A B} (m : Run A) (k : A → Run B) : Run B :=
  match m with
  | (t, inl s) => (t, inl s)
  | (t, inr a) => let '(t', r) := k a in ((t ++ t')%list, r)
  end.

Notation "x ⇐ m ;; k" := (bind m (λ x, k))
  (at level 100, m at next level, right associativity).
Notation "m ;; k" := (bind m (λ _, k))
  (at level 100, right associativity).

Definition emit (ev : Event) : Run unit := ([ev], inr tt).
Definition print (s : string) : Run unit := emit (Print [Lit s]).
Definition sys_exit {A} (code : Z) : Run A := ([], inl (SysExit code)).
Definition try {A} (e : exn) (o : option A) : Run A :=
  match o with
  | Some a => ret a
  | None => ([], inl (Uncaught e))
  end.

(** The exit status the shell sees. *)
Definition exit_status {A} (r : Run A) : Z :=
  match r.2 with
  | inr _ => 0
  | inl (SysExit code) => code
  | inl (Uncaught _) => 1
  end%Z.

(** What the process is started with.  [load_json p] is the outcome of
    [open(p)] and [json.load] on a document that has every field the
    script reads, with the type it expects; [None] stands for [open] or
    [json.load] raising. *)
Record Env := mkEnv {
  argv : list string;
  matplotlib_importable : bool;
  load_json : string → option Report
}.

Definition check_matplotlib (env : Env) : bool := matplotlib_importable env.

Definition nl : string := String (ascii_of_nat 10) EmptyString.

Definition savefig (output_dir file : string) (fig : Figure) : Run unit :=
  let chart_path := ospath.join output_dir file in
  emit (Savefig chart_path fig 150);;
  print ("Saved: " +:+ chart_path).

(** The local variables of [main] that hold the data, once the report
    is loaded.  [v_report] is the object [json.load] returned;
    [old_label], [new_label], [entries] and [summary] are references
    into it, so [entries] is read as [entries (v_report st)].  A
    variable that is not assigned yet is shown as the empty list. *)
Record Locals := mkLocals {
  v_report : Report;
  (* lines 68-72 *)
  v_names : list string;
  v_old_ns : list Qc;
  v_new_ns : list Qc;
  v_pct_changes : list Qc;
  v_categories : list string;
  (* lines 120-126 *)
  v_sorted_indices : list Z;
  v_sorted_names : list string;
  v_sorted_changes : list Qc;
  v_bar_colors : list string;
  (* lines 147-150 *)
  v_old_bytes : list Qc;
  v_new_bytes : list Qc;
  v_old_allocs : list Qc;
  v_new_allocs : list Qc;
  (* lines 213-226 *)
  v_cat_changes : dict.t (list Qc);
  v_cat_counts : dict.t Z;
  v_cat_names : list string;
  v_cat_avgs : list spec_float;
  v_cat_labels : list string;
  v_cat_colors : list string
}.

(** Lines 68-72. *)
Definition prepare_data (report : Report) : Locals :=
  let entries := entries report in
  {| v_report := report;
     v_names := names entries;
     v_old_ns := old_ns entries;
     v_new_ns := new_ns entries;
     v_pct_changes := pct_changes entries;
     v_categories := categories entries;
     v_sorted_indices := []; v_sorted_names := []; v_sorted_changes := [];
     v_bar_colors := [];
     v_old_bytes := []; v_new_bytes := []; v_old_allocs := []; v_new_allocs := [];
     v_cat_changes := []; v_cat_counts := []; v_cat_names := [];
     v_cat_avgs := []; v_cat_labels := []; v_cat_colors := [] |}.

(** The assignments of lines 120-126. *)
Definition assign_sorted (st : Locals) (sorted_indices : list Z)
    (sorted_names : list string) (sorted_changes : list Qc) (bar_colors : list string)
  : Locals :=
  {| v_report := v_report st;
     v_names := v_names st; v_old_ns := v_old_ns st; v_new_ns := v_new_ns st;
     v_pct_changes := v_pct_changes st; v_categories := v_categories st;
     v_sorted_indices := sorted_indices; v_sorted_names := sorted_names;
     v_sorted_changes := sorted_changes; v_bar_colors := bar_colors;
     v_old_bytes := v_old_bytes st; v_new_bytes := v_new_bytes st;
     v_old_allocs := v_old_allocs st; v_new_allocs := v_new_allocs st;
     v_cat_changes := v_cat_changes st; v_cat_counts := v_cat_counts st;
     v_cat_names := v_cat_names st; v_cat_avgs := v_cat_avgs st;
     v_cat_labels := v_cat_labels st; v_cat_colors := v_cat_colors st |}.

(** The assignments of lines 147-150. *)
Definition assign_allocs (st : Locals) (old_bytes new_bytes old_allocs new_allocs : list Qc)
  : Locals :=
  {| v_report := v_report st;
     v_names := v_names st; v_old_ns := v_old_ns st; v_new_ns := v_new_ns st;
     v_pct_changes := v_pct_changes st; v_categories := v_categories st;
     v_sorted_indices := v_sorted_indices st; v_sorted_names := v_sorted_names st;
     v_sorted_changes := v_sorted_changes st; v_bar_colors := v_bar_colors st;
     v_old_bytes := old_bytes; v_new_bytes := new_bytes;
     v_old_allocs := old_allocs; v_new_allocs := new_allocs;
     v_cat_changes := v_cat_changes st; v_cat_counts := v_cat_counts st;
     v_cat_names := v_cat_names st; v_cat_avgs := v_cat_avgs st;
     v_cat_labels := v_cat_labels st; v_cat_colors := v_cat_colors st |}.

(** The two dictionaries after the loop of lines 213-218. *)
Definition assign_rollup (st : Locals) (cat_changes : dict.t (list Qc))
    (cat_counts : dict.t Z) : Locals :=
  {| v_report := v_report st;
     v_names := v_names st; v_old_ns := v_old_ns st; v_new_ns := v_new_ns st;
     v_pct_changes := v_pct_changes st; v_categories := v_categories st;
     v_sorted_indices := v_sorted_indices st; v_sorted_names := v_sorted_names st;
     v_sorted_changes := v_sorted_changes st; v_bar_colors := v_bar_colors st;
     v_old_bytes := v_old_bytes st; v_new_bytes := v_new_bytes st;
     v_old_allocs := v_old_allocs st; v_new_allocs := v_new_allocs st;
     v_cat_changes := cat_changes; v_cat_counts := cat_counts;
     v_cat_names := v_cat_names st; v_cat_avgs := v_cat_avgs st;
     v_cat_labels := v_cat_labels st; v_cat_colors := v_cat_colors st |}.

(** The assignments of lines 220-226. *)
Definition assign_rows (st : Locals) (cat_names : list string)
    (cat_avgs : list spec_float) (cat_labels cat_colors : list string) : Locals :=
  {| v_report := v_report st;
     v_names := v_names st; v_old_ns := v_old_ns st; v_new_ns := v_new_ns st;
     v_pct_changes := v_pct_changes st; v_categories := v_categories st;
     v_sorted_indices := v_sorted_indices st; v_sorted_names := v_sorted_names st;
     v_sorted_changes := v_sorted_changes st; v_bar_colors := v_bar_colors st;
     v_old_bytes := v_old_bytes st; v_new_bytes := v_new_bytes st;
     v_old_allocs := v_old_allocs st; v_new_allocs := v_new_allocs st;
     v_cat_changes := v_cat_changes st; v_cat_counts := v_cat_counts st;
     v_cat_names := cat_names; v_cat_avgs := cat_avgs;
     v_cat_labels := cat_labels; v_cat_colors := cat_colors |}.

(** Lines 82-116. *)
Definition render_comparison (output_dir : string) (st : Locals) : Run Locals :=
  savefig output_dir "ns_per_op_comparison.png"
          (comparison_chart (old_label (v_report st)) (new_label (v_report st))
                            (v_names st) (v_old_ns st) (v_new_ns st));;
  ret st.

(** Lines 120-144. *)
Definition render_delta (output_dir : string) (st : Locals) : Run Locals :=
  ix ⇐ try IndexError (sort_by_change (v_pct_changes st));;
  sn ⇐ try IndexError (select (v_names st) ix);;
  sc ⇐ try IndexError (select (v_pct_changes st) ix);;
  let st := assign_sorted st ix sn sc (bar_colors sc) in
  savefig output_dir "pct_change.png"
          (delta_chart (old_label (v_report st)) (new_label (v_report st))
                       (v_names st) (v_sorted_names st) (v_sorted_changes st)
                       (v_bar_colors st));;
  ret st.

(** Lines 147-210. *)
Definition render_allocations (output_dir : string) (st : Locals) : Run Locals :=
  let entries := entries (v_report st) in
  let st := assign_allocs st (old_bytes entries) (new_bytes entries)
                          (old_allocs entries) (new_allocs entries) in
  savefig output_dir "allocs_comparison.png"
          (allocation_chart (old_label (v_report st)) (new_label (v_report st))
                            (v_names st)
                            (v_old_bytes st) (v_new_bytes st)
                            (v_old_allocs st) (v_new_allocs st));;
  ret st.

(** Lines 213-243. *)
Definition render_categories (output_dir : string) (st : Locals) : Run Locals :=
  let entries := entries (v_report st) in
  let st := assign_rollup st (cat_changes entries) (cat_counts entries) in
  let cn := sorted String.ltb (dict.keys (v_cat_changes st)) in
  avgs ⇐ try RollupError (averages (v_cat_changes st) cn);;
  labels ⇐ try RollupError (row_labels (v_cat_counts st) cn);;
  let st := assign_rows st cn avgs labels (cat_colors avgs) in
  savefig output_dir "category_summary.png"
          (category_chart (old_label (v_report st)) (new_label (v_report st))
                          (v_cat_names st) (v_cat_labels st) (v_cat_avgs st)
                          (v_cat_colors st));;
  ret st.

(** Lines 246-251. *)
Definition print_summary (output_dir : string) (st : Locals) : Run unit :=
  let report := v_report st in
  print (nl +:+ "All charts saved to: " +:+ output_dir +:+ "/");;
  print (nl +:+ "Summary:");;
  print ("  " +:+ new_label report +:+ " wins: "
           +:+ pretty (new_wins (summary report)));;
  print ("  " +:+ old_label report +:+ " wins: "
           +:+ pretty (old_wins (summary report)));;
  print ("  Ties:       " +:+ pretty (ties (summary report)));;
  emit (Print [Lit "  Avg change: ";
               Fmt "+.2f" (avg_ns_per_op_change_pct (summary report));
               Lit "%"]).

(** [main], yielding the store it ends with. *)
Definition main_state (env : Env) : Run Locals :=
  match argv env with
  | _ :: json_path :: _ =>
      let output_dir := ospath.join (ospath.dirname json_path) "charts" in
      emit (Makedirs output_dir);;
      if negb (check_matplotlib env) then
        print "matplotlib is required. Install with: pip install matplotlib";;
        sys_exit 1
      else
        report ⇐ try LoadError (load_json env json_path);;
        match entries report with
        | [] =>
            print "No benchmark entries found in the report.";;
            sys_exit 1
        | _ :: _ =>
            st ⇐ render_comparison output_dir (prepare_data report);;
            st ⇐ render_delta output_dir st;;
            st ⇐ render_allocations output_dir st;;
            st ⇐ render_categories output_dir st;;
            print_summary output_dir st;;
            ret st
        end
  | _ =>
      print "Usage: python3 hack/visualize-benchmarks.py <comparison.json>";;
      print "";;
      print "Generate the JSON first:";;
      print "  go run hack/benchanalyze/main.go -old results/go-1.25.5.txt -new results/go-1.26.txt -output results/";;
      sys_exit 1
  end.

Definition main (env : Env) : Run unit := main_state env;; ret ().

(** ** The file system and the terminal *)

Definition bytes : Type := list Byte.byte.

Record World := mkWorld {
  dirs : gset string;
  files : gmap string bytes;
  stdout : list fstring
}.

Section Backend.
(** The rendering backend: the bytes of the image file for a figure
    at a resolution. *)
Variable render : Figure → Z → bytes.

Definition apply_event (w : World) (ev : Event) : World :=
  match ev with
  | Print line =>
      {| dirs := dirs w; files := files w; stdout := (stdout w ++ [line])%list |}
  | Makedirs p =>
      {| dirs := list_to_set (ospath.dirs_upto EmptyString p) ∪ dirs w;
         files := files w; stdout := stdout w |}
  | Savefig p fig dpi =>
      {| dirs := dirs w; files := <[p := render fig dpi]> (files w);
         stdout := stdout w |}
  end.

Definition exec (w : World) (t : list Event) : World := foldl apply_event w t.

(** The world after running the script in [w]. *)
Definition run (env : Env) (w : World) : World := exec w (main env).1.
End Backend.

(** The image files written along a trace, in order: path, figure and
    resolution. *)
Definition saved_figures (t : list Event) : list (string * (Figure * Z)) :=
  omap (λ ev, match ev with Savefig p fig dpi => Some (p, (fig, dpi)) | _ => None end) t.

(** ** Notions used in the statements *)

(** The name an entry is shown under (the element of [names]). *)
Definition display_name (e : Entry) : string := str.replace "Benchmark" "" (name e).

(** The entries paired with their input index, keyed by percent change:
    what [sorted] works on once the keys are computed. *)
Definition decorated_entries (es : list Entry) : list (Qc * (Z * Entry)) :=
  imap (λ i e, (ns_per_op_change_pct e, (Z.of_nat i, e))) es.

(** The entries, with their input index, in the order chart 2 hands
    them to [barh]. *)
Definition sorted_entries (es : list Entry) : list (Z * Entry) :=
  (sort_decorated num_lt (decorated_entries es)).*2.

(** The percent changes of the entries of a category, in input order. *)
Definition members (c : string) (es : list Entry) : list Qc :=
  ns_per_op_change_pct <$> filter (λ e, category e = c) es.


(** The mean as binary64 arithmetic computes it: the floats of the
    values added from the left, the sum divided by their number, every
    operation rounded. *)
Definition float_mean (vs : list Qc) : spec_float :=
  SFdiv 53 1024 (foldl (SFadd 53 1024) (b64 0) (to_float <$> vs))
        (b64 (Z.of_nat (length vs))).

(** [x] is drawn before [y] by a stable sort: its key is not larger,
    and on a tie it came first in the input (relation [I] on the
    payloads). *)
Definition chart_order {K A} (ltb : K → K → bool) (I : relation A)
    (x y : K * A) : Prop :=
  ltb y.1 x.1 = false ∧ (ltb x.1 y.1 = false → I x.2 y.2).

(** Prefix stripping in the words of the specification: drop the token
    when the name begins with it, keep the name otherwise. *)
Fixpoint string_drop (n : nat) (s : string) : string :=
  match n, s with
  | S n', String _ s' => string_drop n' s'
  | _, _ => s
  end.

Definition strip_prefix (token s : string) : string :=
  if String.prefix token s then string_drop (String.length token) s else s.

(** The colour policy in the words of the specification, on a number
    of the document and on a computed float. *)
Definition threshold_color (v : Qc) (c : string) : Prop :=
  (v < - qc 1 → c = color_better)
  ∧ (qc 1 < v → c = color_worse)
  ∧ (- qc 1 ≤ v ≤ qc 1 → c = color_neutral).

Definition threshold_color_f (v : spec_float) (c : string) : Prop :=
  (SFltb v (b64 (-1)) = true → c = color_better)
  ∧ (SFltb (b64 1) v = true → c = color_worse)
  ∧ (SFleb (b64 (-1)) v = true ∧ SFleb v (b64 1) = true → c = color_neutral).

(** The four output files of a run on [json_path]. *)
Definition output_dir (json_path : string) : string :=
  ospath.join (ospath.dirname json_path) "charts".

Definition chart_files : list string :=
  ["ns_per_op_comparison.png"; "pct_change.png";
   "allocs_comparison.png"; "category_summary.png"].

Definition chart_paths (json_path : string) : list string :=
  ospath.join (output_dir json_path) <$> chart_files.

(** The directories a trace makes sure exist. *)
Definition made_dirs (t : list Event) : gset string :=
  ⋃ ((λ ev, match ev with
            | Makedirs p => list_to_set (ospath.dirs_upto EmptyString p)
            | _ => ∅
            end) <$> t).

(** Writing a sequence of image files, in order, over the files [m]. *)
Definition write_all (render : Figure → Z → bytes)
    (l : list (string * (Figure * Z))) (m : gmap string bytes) : gmap string bytes :=
  foldl (λ m x, <[x.1 := render x.2.1 x.2.2]> m) m l.

(** What a renderer emits: the image, then its "Saved:" line. *)
Definition chart_events (out file : string) (fig : Figure) : list Event :=
  [Savefig (ospath.join out file) fig 150;
   Print [Lit ("Saved: " +:+ ospath.join out file)]].

(** The lines that close a complete run. *)
Definition summary_lines (p : string) (r : Report) : list fstring :=
  [ [Lit (nl +:+ "All charts saved to: " +:+ output_dir p +:+ "/")];
    [Lit (nl +:+ "Summary:")];
    [Lit ("  " +:+ new_label r +:+ " wins: " +:+ pretty (new_wins (summary r)))];
    [Lit ("  " +:+ old_label r +:+ " wins: " +:+ pretty (old_wins (summary r)))];
    [Lit ("  Ties:       " +:+ pretty (ties (summary r)))];
    [Lit "  Avg change: "; Fmt "+.2f" (avg_ns_per_op_change_pct (summary r)); Lit "%"] ].

(** The store after chart 2, after chart 3 and at the end of a run on
    the report [r]. *)
Definition sorted_store (r : Report) : Locals :=
  let es := entries r in
  let sc := (λ x : Z * Entry, ns_per_op_change_pct x.2) <$> sorted_entries es in
  assign_sorted (prepare_data r) (sorted_entries es).*1
                ((λ x : Z * Entry, display_name x.2) <$> sorted_entries es)
                sc (bar_colors sc).

Definition allocs_store (r : Report) : Locals :=
  let es := entries r in
  assign_allocs (sorted_store r) (old_bytes es) (new_bytes es)
                (old_allocs es) (new_allocs es).

Definition final_store (r : Report) : Locals :=
  let es := entries r in
  let avgs := (λ c, float_mean (members c es)) <$> cat_names es in
  assign_rows (assign_rollup (allocs_store r) (cat_changes es) (cat_counts es))
              (cat_names es) avgs
              ((λ c, c +:+ " (n=" +:+ pretty (len (members c es)) +:+ ")")
                 <$> cat_names es)
              (cat_colors avgs).

(** A renderer hands on the report and the lists prepared from it as
    it received them, whatever it assigns to its own variables. *)
Definition keeps_inputs (render : string → Locals → Run Locals) : Prop :=
  ∀ out st, match (render out st).2 with
            | inr st' =>
                v_report st' = v_report st
                ∧ v_names st' = v_names st
                ∧ v_old_ns st' = v_old_ns st
                ∧ v_new_ns st' = v_new_ns st
                ∧ v_pct_changes st' = v_pct_changes st
                ∧ v_categories st' = v_categories st
            | inl _ => True
            end.


(** What a call contributes to the layout of a panel: the positions
    and the values of a bar series, the ticks, the tick labels. *)
Definition call_positions (c : Call) : option (list Qc) :=
  match c with
  | bar x _ _ _ _ _ => Some x
  | barh y _ _ _ _ _ => Some y
  | _ => None
  end.

Definition call_values (c : Call) : option (list Qc) :=
  match c with
  | bar _ h _ _ _ _ => Some h
  | barh _ w _ _ _ _ => Some w
  | _ => None
  end.

Definition call_ticks (c : Call) : option (list Z) :=
  match c with
  | set_xticks t | set_yticks t => Some t
  | _ => None
  end.

Definition call_ticklabels (c : Call) : option (list string) :=
  match c with
  | set_xticklabels l _ _ _ | set_yticklabels l _ => Some l
  | _ => None
  end.

(** Two bar series laid out in rows: there are as many positions,
    values, ticks and tick labels as rows, and row [i] has its tick at
    [i], carrying the label of the row, the bar of the first series
    centred in the lower half of the slot around [i] and the bar of
    the second series centred in the upper half, each with the value
    of the row. *)
Definition paired_rows (pos_old pos_new val_old val_new : list Qc)
    (ticks : list Z) (labels : list string)
    (rows : list (string * (Qc * Qc))) : Prop :=
  length pos_old = length rows ∧ length pos_new = length rows
  ∧ length val_old = length rows ∧ length val_new = length rows
  ∧ length ticks = length rows ∧ length labels = length rows
  ∧ ∀ i label o n, rows !! i = Some (label, (o, n)) →
      ticks !! i = Some (Z.of_nat i)
      ∧ labels !! i = Some label
      ∧ val_old !! i = Some o
      ∧ val_new !! i = Some n
      ∧ ∃ po pn, pos_old !! i = Some po ∧ pos_new !! i = Some pn
                 ∧ Qc_of_Z (Z.of_nat i) - qc 0.5 < po ∧ po < Qc_of_Z (Z.of_nat i)
                 ∧ Qc_of_Z (Z.of_nat i) < pn ∧ pn < Qc_of_Z (Z.of_nat i) + qc 0.5.

(** A panel that draws exactly two bar series and sets ticks and tick
    labels once, laid out in the given rows. *)
Definition paired_panel (panel : list Call) (rows : list (string * (Qc * Qc))) : Prop :=
  ∃ pos_old pos_new val_old val_new ticks labels,
    omap call_positions panel = [pos_old; pos_new]
    ∧ omap call_values panel = [val_old; val_new]
    ∧ omap call_ticks panel = [ticks]
    ∧ omap call_ticklabels panel = [labels]
    ∧ paired_rows pos_old pos_new val_old val_new ticks labels rows.

(** The rows at which the value labels of a panel are written. *)
Definition text_rows (panel : list Call) : list Z :=
  omap (λ c, match c with text _ y _ _ _ _ => Some y | _ => None end) panel.

(** The lines printed along a trace, in order. *)
Definition printed (t : list Event) : list fstring :=
  omap (λ ev, match ev with Print line => Some line | _ => None end) t.

(** The argument lists of a drawing call have matching lengths (what
    matplotlib requires of [bar] and [barh]). *)
Definition call_shape_ok (c : Call) : bool :=
  match c with
  | bar x h _ _ _ _ => bool_decide (length x = length h)
  | barh y w _ _ _ _ => bool_decide (length y = length w)
  | barh_labelled y w col _ =>
      bool_decide (length y = length w) && bool_decide (length col = length w)
  | barh_labelled_f y w col _ =>
      bool_decide (length y = length w) && bool_decide (length col = length w)
  | _ => true
  end.

(** A panel sets as many tick labels as ticks. *)
Definition panel_ticks_ok (panel : list Call) : bool :=
  bool_decide (length <$> omap call_ticks panel
               = length <$> omap call_ticklabels panel).

(** The token occurs in a string. *)
Definition occurs (token s : string) : Prop :=
  ∃ pre post, s = pre +:+ token +:+ post.


(** ** Sample runs *)

Definition suite_entry : Entry :=
  mkEntry "BenchmarkRunBenchmarkSuite" "jobs" (qc 800) (qc 792) (qc (-1))
          (qc 64) (qc 64) (qc 2) (qc 2).

Definition sample_entries : list Entry :=
  [ mkEntry "BenchmarkServeAlert" "http" (qc 1200) (qc 1080) (qc (-10))
            (qc 512) (qc 480) (qc 9) (qc 8);
    suite_entry;
    mkEntry "BenchmarkParseRule" "http" (qc 300) (qc 306) (qc 2)
            (qc 128) (qc 160) (qc 3) (qc 4);
    mkEntry "BenchmarkRoute" "http" (qc 100) (qc 99) (qc (-1))
            (qc 0) (qc 0) (qc 0) (qc 0) ].

Definition sample_report : Report :=
  mkReport "go1.25.5" "go1.26" sample_entries (mkSummary 1 1 2 (qc (-2.5))).

Definition sample_argv : list string :=
  ["hack/visualize-benchmarks.py"; "results/comparison.json"].

Definition sample_env : Env := mkEnv sample_argv true (λ _, Some sample_report).

(** The same start without matplotlib installed. *)
Definition bare_env : Env := mkEnv sample_argv false (λ _, Some sample_report).

(** The same start on a report without entries. *)
Definition empty_report : Report :=
  mkReport "go1.25.5" "go1.26" [] (mkSummary 0 0 0 0).

Definition empty_env : Env := mkEnv sample_argv true (λ _, Some empty_report).

(** A second start on the same document: another interpreter path and
    a loader that knows this one file only. *)
Definition rerun_env : Env :=
  mkEnv ["./hack/visualize-benchmarks.py"; "results/comparison.json"] true
        (λ p, if decide (p = "results/comparison.json") then Some sample_report
              else None).

Definition empty_world : World := mkWorld ∅ ∅ [].

(** A backend that writes empty files. *)
Definition blank_backend (fig : Figure) (dpi : Z) : bytes := [].

(** A start whose document cannot be read. *)
Definition unreadable_env : Env := mkEnv sample_argv true (λ _, None).

(** A start without the path argument. *)
Definition no_arg_env : Env :=
  mkEnv ["hack/visualize-benchmarks.py"] true (λ _, Some sample_report).

(** Two benchmarks with different names and the same display name
    ("RunSuite"), the first with the largest change. *)
Definition clash_entries : list Entry :=
  [ mkEntry "BenchmarkRunBenchmarkSuite" "jobs" (qc 800) (qc 824) (qc 3)
            (qc 64) (qc 64) (qc 2) (qc 2);
    mkEntry "BenchmarkParseRule" "http" (qc 300) (qc 306) (qc 2)
            (qc 128) (qc 160) (qc 3) (qc 4);
    mkEntry "BenchmarkRunSuite" "jobs" (qc 500) (qc 505) (qc 1)
            (qc 32) (qc 32) (qc 1) (qc 1) ].

Definition clash_report : Report :=
  mkReport "go1.25.5" "go1.26" clash_entries (mkSummary 0 3 0 (qc 2)).





(** * Properties *)

(** ** Facts about [sorted] *)

Section SortedFacts.
Context {K A : Type} (ltb : K → K → bool).
Hypothesis ltb_irrefl : ∀ a, ltb a a = false.
Hypothesis ltb_trans : ∀ a b c, ltb a b = true → ltb b c = true → ltb a c = true.
Hypothesis ltb_total : ∀ a b, ltb a b = false → ltb b a = false → a = b.

Lemma ltb_asym a b : ltb a b = true → ltb b a = false.
Proof using ltb_irrefl ltb_trans.
  intros Hab. destruct (ltb b a) eqn:Hba; [|done].
  by rewrite <-(ltb_irrefl a), (ltb_trans a b a).
Qed.

Lemma ltb_neg_trans a b c : ltb b a = false → ltb c b = false → ltb c a = false.
Proof using ltb_irrefl ltb_trans ltb_total.
  intros Hba Hcb. destruct (ltb c a) eqn:Hca; [|done].
  destruct (ltb a b) eqn:Hab.
  - by rewrite (ltb_trans c a b) in Hcb.
  - rewrite (ltb_total a b) in Hca by done. congruence.
Qed.

Lemma insert_stable_perm (x : K * A) l : insert_stable ltb x l ≡ₚ x :: l.
Proof.
  induction l as [|y l IH]; simpl; [done|].
  destruct (ltb y.1 x.1); [|done]. by rewrite IH, Permutation_swap.
Qed.

Lemma sort_decorated_perm (l : list (K * A)) : sort_decorated ltb l ≡ₚ l.
Proof.
  induction l as [|x l IH]; simpl; [done|].
  by rewrite insert_stable_perm, IH.
Qed.

(** The payload plays no part in the comparisons. *)
Lemma insert_stable_fmap {B} (f : A → B) x l :
  insert_stable ltb (prod_map id f x) (prod_map id f <$> l)
  = prod_map id f <$> insert_stable ltb x l.
Proof.
  destruct x as [kx ax].
  induction l as [|[ky ay] l IH]; csimpl; [done|].
  destruct (ltb ky kx); csimpl; [|done]. f_equal. exact IH.
Qed.

Lemma sort_decorated_fmap {B} (f : A → B) l :
  sort_decorated ltb (prod_map id f <$> l)
  = prod_map id f <$> sort_decorated ltb l.
Proof.
  induction l as [|x l IH]; csimpl; [done|].
  by rewrite <-insert_stable_fmap, <-IH.
Qed.

Lemma insert_stable_sorted (I : relation A) x l :
  StronglySorted (chart_order ltb I) l →
  Forall (λ y, I x.2 y.2) l →
  StronglySorted (chart_order ltb I) (insert_stable ltb x l).
Proof using ltb_irrefl ltb_trans ltb_total.
  induction 1 as [|y l Hl IH Hy]; intros Hx; simpl.
  { repeat constructor. }
  apply Forall_cons in Hx as [Hxy Hx].
  destruct (ltb y.1 x.1) eqn:Hlt.
  - constructor; [by apply IH|].
    rewrite insert_stable_perm. constructor; [|done].
    split; [by apply ltb_asym|congruence].
  - constructor; [by constructor|].
    constructor; [by split|].
    rewrite Forall_forall in Hy, Hx |- *. intros z Hz. split; [|by auto].
    destruct (Hy z Hz) as [Hzy _]. by eapply ltb_neg_trans.
Qed.

Lemma sort_decorated_sorted (I : relation A) l :
  StronglySorted (λ x y, I x.2 y.2) l →
  StronglySorted (chart_order ltb I) (sort_decorated ltb l).
Proof using ltb_irrefl ltb_trans ltb_total.
  induction 1 as [|x l Hl IH Hx]; simpl; [constructor|].
  apply insert_stable_sorted; [done|]. by rewrite sort_decorated_perm.
Qed.
End SortedFacts.

Lemma StronglySorted_lookup_lt {A} (R : relation A) l i j x y :
  StronglySorted R l → (i < j)%nat → l !! i = Some x → l !! j = Some y → R x y.
Proof.
  intros Hl. revert i j. induction Hl as [|a l Hl IH Ha]; intros i j Hij Hi Hj.
  { by rewrite lookup_nil in Hi. }
  destruct j as [|j]; [lia|]. simpl in Hj. destruct i as [|i]; simpl in Hi.
  - injection Hi as ->. rewrite Forall_forall in Ha. apply Ha.
    by eapply list_elem_of_lookup_2.
  - eapply (IH i j); [lia|done..].
Qed.

Lemma StronglySorted_lookup_2 {A} (R : relation A) l :
  (∀ i j x y, (i < j)%nat → l !! i = Some x → l !! j = Some y → R x y) →
  StronglySorted R l.
Proof.
  induction l as [|a l IH]; intros H; constructor.
  - apply IH. intros i j x y Hij Hi Hj. apply (H (S i) (S j)); [lia|done..].
  - apply Forall_lookup. intros j y Hj. apply (H 0%nat (S j)); [lia|done..].
Qed.

(** *** The orders used by the script *)

Lemma num_lt_irrefl a : num_lt a a = false.
Proof. apply bool_decide_eq_false, Qcle_not_lt, Qcle_refl. Qed.

Lemma num_lt_trans a b c : num_lt a b = true → num_lt b c = true → num_lt a c = true.
Proof.
  unfold num_lt. rewrite !bool_decide_eq_true. apply Qclt_trans.
Qed.

Lemma num_lt_total a b : num_lt a b = false → num_lt b a = false → a = b.
Proof.
  unfold num_lt. rewrite !bool_decide_eq_false. intros Hab Hba.
  apply Qcle_antisym; by apply Qcnot_lt_le.
Qed.

Lemma num_lt_false a b : num_lt b a = false ↔ a ≤ b.
Proof.
  unfold num_lt. rewrite bool_decide_eq_false. split.
  - apply Qcnot_lt_le.
  - apply Qcle_not_lt.
Qed.






(** ** Chart 2: the sorted data *)

Lemma decorated_entries_elem es k i e :
  (k, (i, e)) ∈ decorated_entries es →
  k = ns_per_op_change_pct e ∧ (0 ≤ i)%Z ∧ es !! Z.to_nat i = Some e.
Proof.
  intros (j & e' & [= -> -> ->] & He)%elem_of_lookup_imap_1.
  rewrite Nat2Z.id. split_and!; [done|lia|done].
Qed.

Lemma sort_decorated_entries_elem es k i e :
  (k, (i, e)) ∈ sort_decorated num_lt (decorated_entries es) →
  k = ns_per_op_change_pct e ∧ (0 ≤ i)%Z ∧ es !! Z.to_nat i = Some e.
Proof. rewrite sort_decorated_perm. apply decorated_entries_elem. Qed.

Lemma sorted_entries_elem es i e :
  (i, e) ∈ sorted_entries es → (0 ≤ i)%Z ∧ es !! Z.to_nat i = Some e.
Proof.
  intros ([k [i' e']] & [= <- <-] & H)%list_elem_of_fmap.
  by apply sort_decorated_entries_elem in H as (_ & ? & ?).
Qed.

Lemma decorate_indices es :
  decorate (λ i : Z, pct_changes es !! Z.to_nat i) (range (len (pct_changes es)))
  = Some (prod_map id fst <$> decorated_entries es).
Proof.
  apply mapM_Some_2, Forall2_same_length_lookup. split.
  - unfold range, len, pct_changes, decorated_entries.
    rewrite length_seqZ, !length_fmap, length_imap. lia.
  - intros i x y [-> _]%lookup_seqZ.
    rewrite list_lookup_fmap. unfold decorated_entries.
    rewrite list_lookup_imap. unfold pct_changes.
    rewrite Z.add_0_l, Nat2Z.id, list_lookup_fmap.
    destruct (es !! i) as [e|]; [|done]. by intros [= <-].
Qed.

Lemma sorted_indices_eq es : sorted_indices es = Some (sorted_entries es).*1.
Proof.
  unfold sorted_indices, sort_by_change, sorted_key. rewrite decorate_indices. simpl.
  rewrite sort_decorated_fmap. unfold sorted_entries.
  f_equal. rewrite <-!list_fmap_compose. by apply list_fmap_ext.
Qed.

Lemma sorted_changes_eq es :
  sorted_changes es = Some ((λ x, ns_per_op_change_pct x.2) <$> sorted_entries es).
Proof.
  unfold sorted_changes, select. rewrite sorted_indices_eq. simpl.
  apply mapM_Some_2, Forall2_fmap, Forall_Forall2_diag, Forall_forall.
  intros [i e] [_ He]%sorted_entries_elem. simpl.
  unfold pct_changes. by rewrite list_lookup_fmap, He.
Qed.

Lemma sorted_names_eq es :
  sorted_names es = Some ((λ x, display_name x.2) <$> sorted_entries es).
Proof.
  unfold sorted_names, select. rewrite sorted_indices_eq. simpl.
  apply mapM_Some_2, Forall2_fmap, Forall_Forall2_diag, Forall_forall.
  intros [i e] [_ He]%sorted_entries_elem. simpl.
  unfold names. by rewrite list_lookup_fmap, He.
Qed.

Lemma sorted_entries_perm es : (sorted_entries es).*2 ≡ₚ es.
Proof.
  unfold sorted_entries. rewrite sort_decorated_perm. unfold decorated_entries.
  rewrite <-list_fmap_compose, fmap_imap. simpl.
  induction es as [|e es IH] using rev_ind; [done|].
  by rewrite imap_app, IH.
Qed.

Lemma sorted_entries_length es : length (sorted_entries es) = length es.
Proof. by rewrite <-(length_fmap snd), sorted_entries_perm. Qed.

Lemma decorated_entries_input_order es :
  StronglySorted (λ x y : Qc * (Z * Entry), (x.2.1 < y.2.1)%Z) (decorated_entries es).
Proof.
  apply StronglySorted_lookup_2. intros i j x y Hij.
  unfold decorated_entries. rewrite !list_lookup_imap.
  destruct (es !! i), (es !! j); simpl; try done.
  intros [= <-] [= <-]. simpl. lia.
Qed.

(** Earlier bars have changes that are not larger, and on equal changes
    the smaller input index. *)
Lemma sorted_entries_order es p q x y :
  (p < q)%nat → sorted_entries es !! p = Some x → sorted_entries es !! q = Some y →
  ns_per_op_change_pct x.2 ≤ ns_per_op_change_pct y.2
  ∧ (ns_per_op_change_pct x.2 = ns_per_op_change_pct y.2 → (x.1 < y.1)%Z).
Proof.
  intros Hpq. unfold sorted_entries. rewrite !list_lookup_fmap.
  destruct (sort_decorated _ _ !! p) as [[kx [ix ex]]|] eqn:Hp; [|done].
  destruct (sort_decorated _ _ !! q) as [[ky [iy ey]]|] eqn:Hq; [|done].
  intros [= <-] [= <-]. simpl.
  pose proof (sort_decorated_sorted num_lt num_lt_irrefl num_lt_trans num_lt_total
                (λ a b : Z * Entry, (a.1 < b.1)%Z) _
                (decorated_entries_input_order es)) as Hs.
  destruct (StronglySorted_lookup_lt _ _ _ _ _ _ Hs Hpq Hp Hq) as [Hle Htie].
  simpl in *.
  apply list_elem_of_lookup_2, sort_decorated_entries_elem in Hp as (-> & _).
  apply list_elem_of_lookup_2, sort_decorated_entries_elem in Hq as (-> & _).
  split; [by apply num_lt_false|].
  intros Heq. apply Htie. rewrite Heq. apply num_lt_irrefl.
Qed.

(** ** Facts about [dict] *)

Lemma dict_get_set_eq {V} (d : dict.t V) k v : dict.get (dict.set d k v) k = Some v.
Proof.
  induction d as [|[k' v'] d IH]; simpl.
  - by rewrite decide_True.
  - destruct (decide (k' = k)) as [->|Hne]; simpl.
    + by rewrite decide_True.
    + by rewrite decide_False.
Qed.

Lemma dict_get_set_ne {V} (d : dict.t V) k k' v :
  k ≠ k' → dict.get (dict.set d k v) k' = dict.get d k'.
Proof.
  intros Hne. induction d as [|[k0 v0] d IH]; simpl.
  - by rewrite decide_False.
  - destruct (decide (k0 = k)) as [->|Hne0]; simpl.
    + by rewrite !decide_False.
    + by rewrite IH.
Qed.

Lemma dict_keys_get {V} (d : dict.t V) k : k ∈ dict.keys d ↔ is_Some (dict.get d k).
Proof.
  unfold dict.keys. induction d as [|[k' v'] d IH]; simpl.
  - rewrite elem_of_nil. split; [done|]. by intros [? ?].
  - rewrite elem_of_cons, IH. destruct (decide (k' = k)) as [->|Hne].
    + split; eauto.
    + split; [by intros [?|?]|by right].
Qed.

Lemma dict_keys_set_NoDup {V} (d : dict.t V) k v :
  NoDup (dict.keys d) → NoDup (dict.keys (dict.set d k v)).
Proof.
  induction d as [|[k' v'] d IH]; simpl.
  - intros _. apply NoDup_singleton.
  - rewrite NoDup_cons. intros [Hk' Hd].
    destruct (decide (k' = k)) as [->|Hne]; simpl.
    + by apply NoDup_cons.
    + apply NoDup_cons. split; [|by apply IH].
      rewrite dict_keys_get, dict_get_set_ne by done.
      by rewrite <-dict_keys_get.
Qed.

(** ** Chart 4: the rollup *)

Lemma members_snoc c es e :
  members c (es ++ [e])
  = (members c es ++ if decide (category e = c) then [ns_per_op_change_pct e] else [])%list.
Proof.
  unfold members. rewrite filter_app, fmap_app. f_equal.
  rewrite filter_cons, filter_nil. by destruct (decide (category e = c)).
Qed.

Lemma rollup_snoc es e : rollup (es ++ [e]) = rollup_step (rollup es) e.
Proof. unfold rollup. by rewrite foldl_snoc. Qed.

Lemma len_snoc {A} (l : list A) x : len (l ++ [x]) = (len l + 1)%Z.
Proof. unfold len. rewrite length_app. simpl. lia. Qed.

(** After the loop each dict holds, for a category with members, the
    member values and their number, and nothing for other keys. *)
Lemma rollup_get es c :
  dict.get (cat_changes es) c
  = (if decide (members c es = []) then None else Some (members c es))
  ∧ dict.get (cat_counts es) c
  = (if decide (members c es = []) then None else Some (len (members c es))).
Proof.
  unfold cat_changes, cat_counts.
  induction es as [|e es [IH1 IH2]] using rev_ind; [done|].
  rewrite rollup_snoc, members_snoc. unfold rollup_step. simpl.
  destruct (decide (category e = c)) as [->|Hne].
  - rewrite !dict_get_set_eq, IH1, IH2.
    destruct (decide ((_ ++ _)%list = [])) as [[_ ?]%app_eq_nil|_]; [done|].
    destruct (decide (members _ es = [])) as [->|_]; simpl; [done|].
    by rewrite len_snoc.
  - rewrite !dict_get_set_ne, app_nil_r by done. done.
Qed.

Lemma rollup_keys_NoDup es :
  NoDup (dict.keys (cat_changes es)).
Proof.
  unfold cat_changes.
  induction es as [|e es IH] using rev_ind; [apply NoDup_nil_2|].
  rewrite rollup_snoc. unfold rollup_step. simpl. by apply dict_keys_set_NoDup.
Qed.

Lemma members_nonempty c es : members c es ≠ [] ↔ c ∈ categories es.
Proof.
  unfold members, categories. rewrite list_elem_of_fmap. split.
  - destruct (filter _ es) as [|e l] eqn:Hf; [done|]. intros _.
    assert (e ∈ filter (λ e, category e = c) es) as [? ?]%list_elem_of_filter
      by (rewrite Hf; left).
    eauto.
  - intros (e & -> & He) Hnil.
    assert (e ∈ filter (λ e', category e' = category e) es) as Hin
      by (by apply list_elem_of_filter).
    apply fmap_nil_inv in Hnil. rewrite Hnil in Hin. by apply elem_of_nil in Hin.
Qed.

Lemma rollup_keys es c : c ∈ dict.keys (cat_changes es) ↔ c ∈ categories es.
Proof.
  rewrite dict_keys_get, <-members_nonempty.
  destruct (rollup_get es c) as [-> _].
  destruct (decide (members c es = [])); split; done.
Qed.

(** *** [sorted] on distinct strings *)

Lemma sorted_perm {A} (ltb : A → A → bool) (l : list A) : sorted ltb l ≡ₚ l.
Proof.
  unfold sorted. rewrite sort_decorated_perm, <-list_fmap_compose.
  by rewrite <-(list_fmap_id l) at 2.
Qed.


Lemma cat_names_perm es : cat_names es ≡ₚ dict.keys (cat_changes es).
Proof. apply sorted_perm. Qed.

Lemma cat_names_elem es c : c ∈ cat_names es ↔ c ∈ categories es.
Proof. by rewrite cat_names_perm, rollup_keys. Qed.


(** *** The means *)

Lemma sum_fold vs : sum vs = foldl (SFadd 53 1024) (b64 0) (to_float <$> vs).
Proof. unfold sum. by rewrite foldl_fmap. Qed.

Lemma truediv_mean vs : vs ≠ [] → truediv (sum vs) (len vs) = Some (float_mean vs).
Proof.
  intros Hvs. unfold truediv. rewrite decide_False.
  - unfold float_mean, len. by rewrite sum_fold.
  - unfold len. destruct vs; [done|]. simpl. lia.
Qed.

Lemma cat_avgs_eq es :
  cat_avgs es = Some ((λ c, float_mean (members c es)) <$> cat_names es).
Proof.
  apply mapM_Some_2, Forall2_fmap_r, Forall_Forall2_diag, Forall_forall.
  intros c Hc%cat_names_elem%members_nonempty.
  destruct (rollup_get es c) as [-> _]. rewrite decide_False by done. simpl.
  by apply truediv_mean.
Qed.

Lemma cat_labels_eq es :
  cat_labels es
  = Some ((λ c, c +:+ " (n=" +:+ pretty (len (members c es)) +:+ ")") <$> cat_names es).
Proof.
  apply mapM_Some_2, Forall2_fmap_r, Forall_Forall2_diag, Forall_forall.
  intros c Hc%cat_names_elem%members_nonempty.
  destruct (rollup_get es c) as [_ ->]. by rewrite decide_False by done.
Qed.

(** ** Facts about [str.replace] *)

Lemma prefix_nil (s : string) : String.prefix "" s = true.
Proof. by destruct s. Qed.

Lemma app_cons (x : ascii) (a s : string) : String x a +:+ s = String x (a +:+ s).
Proof. reflexivity. Qed.

Lemma prefix_app (a s : string) : String.prefix a (a +:+ s) = true.
Proof.
  induction a as [|x a IH]; [apply prefix_nil|].
  rewrite app_cons. cbn [String.prefix]. by destruct (ascii_dec x x).
Qed.

Lemma prefix_inv (a b : string) : String.prefix a b = true → ∃ s, b = a +:+ s.
Proof.
  revert b. induction a as [|x a IH]; intros b.
  - intros _. by exists b.
  - destruct b as [|y b]; [done|]. cbn [String.prefix].
    destruct (ascii_dec x y) as [->|]; [|done].
    intros [s ->]%IH. by exists s.
Qed.

Lemma replace_from_skip old new (t s : string) :
  str.replace_from old new (String.length t) (t +:+ s) = str.replace_from old new 0 s.
Proof. induction t as [|x t IH]; [done|]. rewrite app_cons. exact IH. Qed.

Lemma replace_prefix old new s :
  old ≠ "" → str.replace old new (old +:+ s) = new +:+ str.replace old new s.
Proof.
  destruct old as [|c old]; [done|]. intros _. unfold str.replace.
  rewrite app_cons. cbn [str.replace_from].
  rewrite <-app_cons, prefix_app. cbn [String.length]. rewrite Nat.sub_1_r. simpl Nat.pred.
  by rewrite replace_from_skip.
Qed.

Lemma replace_no_match old new c s :
  String.prefix old (String c s) = false →
  str.replace old new (String c s) = String c (str.replace old new s).
Proof.
  destruct old as [|x old]; [done|]. intros H. unfold str.replace.
  cbn [str.replace_from]. by rewrite H.
Qed.

Lemma replace_absent old new s :
  old ≠ "" → (∀ pre post, s ≠ pre +:+ old +:+ post) → str.replace old new s = s.
Proof.
  intros Hold. induction s as [|c s IH]; intros Habs.
  - by destruct old.
  - rewrite replace_no_match.
    + f_equal. apply IH. intros pre post ->. by apply (Habs (String c pre) post).
    + apply not_true_is_false. intros [post Hpost]%prefix_inv.
      by apply (Habs "" post).
Qed.


(** ** The figures are always produced *)

Lemma sort_by_change_eq es :
  sort_by_change (pct_changes es) = Some (sorted_entries es).*1.
Proof. apply sorted_indices_eq. Qed.

Lemma select_names_eq es :
  select (names es) (sorted_entries es).*1
  = Some ((λ x, display_name x.2) <$> sorted_entries es).
Proof.
  pose proof (sorted_names_eq es) as H. unfold sorted_names in H.
  by rewrite sorted_indices_eq in H.
Qed.

Lemma select_changes_eq es :
  select (pct_changes es) (sorted_entries es).*1
  = Some ((λ x, ns_per_op_change_pct x.2) <$> sorted_entries es).
Proof.
  pose proof (sorted_changes_eq es) as H. unfold sorted_changes in H.
  by rewrite sorted_indices_eq in H.
Qed.

Lemma pct_change_figure_eq r :
  pct_change_figure r
  = Some (delta_chart (old_label r) (new_label r) (names (entries r))
            ((λ x, display_name x.2) <$> sorted_entries (entries r))
            ((λ x, ns_per_op_change_pct x.2) <$> sorted_entries (entries r))
            (bar_colors ((λ x, ns_per_op_change_pct x.2) <$> sorted_entries (entries r)))).
Proof.
  unfold pct_change_figure. by rewrite sorted_names_eq, sorted_changes_eq.
Qed.

Lemma category_figure_eq r :
  category_figure r
  = Some (category_chart (old_label r) (new_label r) (cat_names (entries r))
            ((λ c, c +:+ " (n=" +:+ pretty (len (members c (entries r))) +:+ ")")
               <$> cat_names (entries r))
            ((λ c, float_mean (members c (entries r))) <$> cat_names (entries r))
            (cat_colors ((λ c, float_mean (members c (entries r)))
                           <$> cat_names (entries r)))).
Proof.
  unfold category_figure. by rewrite cat_avgs_eq, cat_labels_eq.
Qed.

Lemma category_figure_Some r : is_Some (category_figure r).
Proof. rewrite category_figure_eq. by eexists. Qed.

(** ** Traces of [main] *)

Lemma bind_ret {A B} (a : A) (k : A → Run B) : bind (ret a) k = k a.
Proof. unfold bind, ret. by destruct (k a). Qed.

Lemma bind_value {A B} (t : list Event) (a : A) (k : A → Run B) :
  bind (t, inr a) k = ((t ++ (k a).1)%list, (k a).2).
Proof. unfold bind. by destruct (k a). Qed.

Lemma argv_path env p :
  argv env !! 1%nat = Some p → ∃ a0 rest, argv env = a0 :: p :: rest.
Proof.
  destruct (argv env) as [|a0 [|p' rest]]; try done.
  intros [= ->]. eauto.
Qed.

Lemma render_comparison_run out r :
  render_comparison out (prepare_data r)
  = (chart_events out "ns_per_op_comparison.png" (ns_per_op_figure r),
     inr (prepare_data r)).
Proof. reflexivity. Qed.

Lemma render_delta_run out r fig2 :
  pct_change_figure r = Some fig2 →
  render_delta out (prepare_data r)
  = (chart_events out "pct_change.png" fig2, inr (sorted_store r)).
Proof.
  rewrite pct_change_figure_eq. intros [= <-].
  unfold render_delta, prepare_data. cbn [v_report v_names v_pct_changes].
  rewrite sort_by_change_eq. cbn [try]. rewrite bind_ret.
  rewrite select_names_eq. cbn [try]. rewrite bind_ret.
  rewrite select_changes_eq. cbn [try]. rewrite bind_ret.
  reflexivity.
Qed.

Lemma render_allocations_run out r :
  render_allocations out (sorted_store r)
  = (chart_events out "allocs_comparison.png" (allocs_figure r),
     inr (allocs_store r)).
Proof. reflexivity. Qed.

Lemma render_categories_run out r fig4 :
  category_figure r = Some fig4 →
  render_categories out (allocs_store r)
  = (chart_events out "category_summary.png" fig4, inr (final_store r)).
Proof.
  rewrite category_figure_eq. intros [= <-].
  pose proof (cat_avgs_eq (entries r)) as Ha.
  pose proof (cat_labels_eq (entries r)) as Hl.
  unfold cat_avgs, cat_labels, cat_names in Ha, Hl.
  unfold render_categories. cbv zeta.
  cbn [allocs_store sorted_store assign_allocs assign_sorted assign_rollup
       prepare_data v_report v_cat_changes v_cat_counts].
  rewrite Ha. cbn [try]. rewrite bind_ret.
  rewrite Hl. cbn [try]. rewrite bind_ret.
  reflexivity.
Qed.

Lemma main_no_matplotlib env p :
  argv env !! 1%nat = Some p → matplotlib_importable env = false →
  main env
  = ([Makedirs (output_dir p);
      Print [Lit "matplotlib is required. Install with: pip install matplotlib"]],
     inl (SysExit 1)).
Proof.
  intros (a0 & rest & Hargv)%argv_path Hmpl. unfold main, main_state, check_matplotlib.
  by rewrite Hargv, Hmpl.
Qed.

Lemma main_no_entries env p r :
  argv env !! 1%nat = Some p → matplotlib_importable env = true →
  load_json env p = Some r → entries r = [] →
  main env
  = ([Makedirs (output_dir p);
      Print [Lit "No benchmark entries found in the report."]],
     inl (SysExit 1)).
Proof.
  intros (a0 & rest & Hargv)%argv_path Hmpl Hload Hes.
  unfold main, main_state, check_matplotlib.
  rewrite Hargv, Hmpl, Hload. cbn. by rewrite Hes.
Qed.

(** A run on a report with entries goes through the four renderers and
    ends with the store [final_store]. *)
Lemma main_state_success env p r :
  argv env !! 1%nat = Some p → matplotlib_importable env = true →
  load_json env p = Some r → entries r ≠ [] →
  ∃ fig2 fig4,
    pct_change_figure r = Some fig2 ∧ category_figure r = Some fig4
    ∧ main_state env
      = ((Makedirs (output_dir p)
          :: chart_events (output_dir p) "ns_per_op_comparison.png" (ns_per_op_figure r)
          ++ chart_events (output_dir p) "pct_change.png" fig2
          ++ chart_events (output_dir p) "allocs_comparison.png" (allocs_figure r)
          ++ chart_events (output_dir p) "category_summary.png" fig4
          ++ (Print <$> summary_lines p r))%list,
         inr (final_store r)).
Proof.
  intros (a0 & rest & Hargv)%argv_path Hmpl Hload Hes.
  destruct (category_figure_Some r) as [fig4 H4].
  destruct (pct_change_figure r) as [fig2|] eqn:H2;
    [|by rewrite pct_change_figure_eq in H2].
  exists fig2, fig4. split; [done|]. split; [done|].
  unfold main_state, check_matplotlib. rewrite Hargv, Hmpl, Hload.
  cbn [negb try]. fold (output_dir p).
  unfold emit at 1. rewrite bind_value, bind_ret.
  destruct (entries r) as [|e es] eqn:Hent; [done|].
  rewrite render_comparison_run, bind_value.
  rewrite (render_delta_run _ _ _ H2), bind_value.
  rewrite render_allocations_run, bind_value.
  rewrite (render_categories_run _ _ _ H4), bind_value.
  reflexivity.
Qed.

Lemma main_success env p r :
  argv env !! 1%nat = Some p → matplotlib_importable env = true →
  load_json env p = Some r → entries r ≠ [] →
  ∃ fig2 fig4,
    pct_change_figure r = Some fig2 ∧ category_figure r = Some fig4
    ∧ (main env).2 = inr ()
    ∧ made_dirs (main env).1 = list_to_set (ospath.dirs_upto "" (output_dir p))
    ∧ saved_figures (main env).1
      = zip (chart_paths p)
            [(ns_per_op_figure r, 150%Z); (fig2, 150%Z);
             (allocs_figure r, 150%Z); (fig4, 150%Z)].
Proof.
  intros Hargv Hmpl Hload Hes.
  destruct (main_state_success env p r Hargv Hmpl Hload Hes)
    as (fig2 & fig4 & H2 & H4 & Hmain).
  exists fig2, fig4. split; [done|]. split; [done|].
  unfold main. rewrite Hmain, bind_value.
  split; [done|]. split; [|done].
  cbn. unfold made_dirs. cbn.
  by rewrite !(left_id_L ∅ (∪)), (right_id_L ∅ (∪)).
Qed.

Lemma main_success_trace env p r :
  argv env !! 1%nat = Some p → matplotlib_importable env = true →
  load_json env p = Some r → entries r ≠ [] →
  main env
  = ((Makedirs (output_dir p)
      :: flat_map (λ x, [Savefig x.1 x.2.1 x.2.2; Print [Lit ("Saved: " +:+ x.1)]])
                  (saved_figures (main env).1))
     ++ (Print <$> [ [Lit (nl +:+ "All charts saved to: " +:+ output_dir p +:+ "/")];
                     [Lit (nl +:+ "Summary:")];
                     [Lit ("  " +:+ new_label r +:+ " wins: "
                             +:+ pretty (new_wins (summary r)))];
                     [Lit ("  " +:+ old_label r +:+ " wins: "
                             +:+ pretty (old_wins (summary r)))];
                     [Lit ("  Ties:       " +:+ pretty (ties (summary r)))];
                     [Lit "  Avg change: ";
                      Fmt "+.2f" (avg_ns_per_op_change_pct (summary r));
                      Lit "%"] ]),
     inr ())%list.
Proof.
  intros Hargv Hmpl Hload Hes.
  destruct (main_success env p r Hargv Hmpl Hload Hes)
    as (fig2 & fig4 & H2 & H4 & _ & _ & Hsaved).
  rewrite Hsaved. clear Hsaved.
  destruct (main_state_success env p r Hargv Hmpl Hload Hes)
    as (fig2' & fig4' & H2' & H4' & Hmain).
  assert (fig2' = fig2) as -> by congruence.
  assert (fig4' = fig4) as -> by congruence.
  unfold main. rewrite Hmain, bind_value. cbn [ret fst snd].
  rewrite app_nil_r. reflexivity.
Qed.

(** ** Traces on the file system *)

Section ExecFacts.
Variable render : Figure → Z → bytes.

Lemma exec_files w t :
  files (exec render w t) = write_all render (saved_figures t) (files w).
Proof.
  revert w. induction t as [|ev t IH]; intros w; [done|].
  unfold exec in *. simpl. rewrite IH. by destruct ev.
Qed.

Lemma exec_dirs w t : dirs (exec render w t) = made_dirs t ∪ dirs w.
Proof.
  revert w. induction t as [|ev t IH]; intros w.
  - unfold made_dirs. simpl. by rewrite (left_id_L ∅ (∪)).
  - unfold exec in *. simpl. rewrite IH. unfold made_dirs. simpl.
    destruct ev; simpl.
    + by rewrite (left_id_L ∅ (∪)).
    + rewrite (assoc_L (∪)). f_equal. apply (comm_L (∪)).
    + by rewrite (left_id_L ∅ (∪)).
Qed.

Lemma write_all_lookup_notin l m k :
  k ∉ l.*1 → write_all render l m !! k = m !! k.
Proof.
  revert m. induction l as [|x l IH]; intros m Hk; [done|].
  apply not_elem_of_cons in Hk as [Hne Hk].
  unfold write_all in *. simpl. rewrite IH by done. by apply lookup_insert_ne.
Qed.

(** What ends up in a written file does not depend on what was there. *)
Lemma write_all_lookup_in l m1 m2 k :
  k ∈ l.*1 → write_all render l m1 !! k = write_all render l m2 !! k.
Proof.
  revert m1 m2. induction l as [|x l IH]; intros m1 m2 Hk.
  { by apply elem_of_nil in Hk. }
  destruct (decide (k ∈ l.*1)) as [Hin|Hnotin].
  - unfold write_all in *. simpl. by apply IH.
  - apply elem_of_cons in Hk as [->|?]; [|done].
    change (write_all render l (<[x.1:=render x.2.1 x.2.2]> m1) !! x.1
            = write_all render l (<[x.1:=render x.2.1 x.2.2]> m2) !! x.1).
    rewrite !write_all_lookup_notin by done. by rewrite !lookup_insert_eq.
Qed.

Lemma write_all_idemp l m :
  write_all render l (write_all render l m) = write_all render l m.
Proof.
  apply map_eq. intros k. destruct (decide (k ∈ l.*1)).
  - by apply write_all_lookup_in.
  - by apply write_all_lookup_notin.
Qed.

Lemma write_all_nil m : write_all render [] m = m.
Proof. done. Qed.
End ExecFacts.


(** ** The sample report, evaluated *)

Example sample_names :
  names sample_entries = ["ServeAlert"; "RunSuite"; "ParseRule"; "Route"].
Proof. reflexivity. Qed.

Example sample_sorted_indices : sorted_indices sample_entries = Some [0; 1; 3; 2]%Z.
Proof. reflexivity. Qed.

Example sample_sorted_names :
  sorted_names sample_entries = Some ["ServeAlert"; "RunSuite"; "Route"; "ParseRule"].
Proof. reflexivity. Qed.

Example sample_bar_colors :
  bar_colors <$> sorted_changes sample_entries
  = Some [color_better; color_neutral; color_neutral; color_worse].
Proof. reflexivity. Qed.

Example sample_cat_labels :
  cat_labels sample_entries = Some ["http (n=3)"; "jobs (n=1)"].
Proof. reflexivity. Qed.

Example sample_cat_avgs :
  cat_avgs sample_entries = Some [to_float (qc (-3)); to_float (qc (-1))].
Proof. by vm_compute. Qed.

Example sample_cat_colors :
  cat_colors <$> cat_avgs sample_entries = Some [color_better; color_neutral].
Proof. by vm_compute. Qed.

Example sample_saved :
  (saved_figures (main sample_env).1).*1
  = ["results/charts/ns_per_op_comparison.png"; "results/charts/pct_change.png";
     "results/charts/allocs_comparison.png"; "results/charts/category_summary.png"].
Proof. reflexivity. Qed.

Example sample_usage : exit_status (main (mkEnv ["hack/visualize-benchmarks.py"] true (λ _, None))) = 1%Z.
Proof. reflexivity. Qed.

(** The float of a number written with a decimal fraction is the
    nearest binary64 number, as Python reads it: 0.1 is
    0x1.999999999999ap-4 and 2.9 is 0x1.7333333333333p+1. *)
Example sample_to_float :
  to_float (qc 0.1) = S754_finite false 7205759403792794 (-56)
  ∧ to_float (qc 2.9) = S754_finite false 6530219459687219 (-51)
  ∧ to_float (qc (-3)) = b64 (-3)
  ∧ to_float 0 = b64 0.
Proof. by vm_compute. Qed.

(** A sum can overflow: the mean of 1e308 and 1e308 is infinite. *)
Example sample_overflow :
  float_mean [qc 1e308; qc 1e308] = S754_infinity false
  ∧ cat_colors [S754_infinity false] = [color_worse].
Proof. by vm_compute. Qed.

(** ** The colour policy *)

Lemma zip_fmap_same {A B C} (f : A → B) (g : A → C) (l : list A) :
  zip (f <$> l) (g <$> l) = (λ x, (f x, g x)) <$> l.
Proof. induction l as [|x l IH]; csimpl; [done|]. by rewrite IH. Qed.

Lemma minus_one_lt_one : - qc 1 < qc 1.
Proof. reflexivity. Qed.

Lemma threshold_color_policy v :
  threshold_color v (if num_lt v (- qc 1) then color_better
                     else if num_lt (qc 1) v then color_worse else color_neutral).
Proof.
  unfold threshold_color, num_lt.
  destruct (bool_decide_reflect (v < - qc 1)) as [Hlo|Hlo];
    [|destruct (bool_decide_reflect (qc 1 < v)) as [Hhi|Hhi]].
  - split_and!; [done|..].
    + intros Hhi. destruct (Qclt_not_le _ _ Hhi).
      apply Qclt_le_weak, (Qclt_trans _ _ _ Hlo minus_one_lt_one).
    + intros [Hge _]. by destruct (Qcle_not_lt _ _ Hge).
  - split_and!; [done|done|].
    intros [_ Hle]. by destruct (Qcle_not_lt _ _ Hle).
  - done.
Qed.

Lemma threshold_color_functional v c c' :
  threshold_color v c → threshold_color v c' → c = c'.
Proof.
  intros (H1 & H2 & H3) (H1' & H2' & H3').
  destruct (Qclt_le_dec v (- qc 1)) as [Hlo|Hlo]; [by rewrite H1, H1'|].
  destruct (Qclt_le_dec (qc 1) v) as [Hhi|Hhi]; [by rewrite H2, H2'|].
  by rewrite H3, H3'.
Qed.

(** *** Comparisons of floats *)

Lemma b64_minus_one : b64 (-1) = S754_finite true 4503599627370496 (-52).
Proof. by vm_compute. Qed.

Lemma b64_one : b64 1 = S754_finite false 4503599627370496 (-52).
Proof. by vm_compute. Qed.

Lemma SFcompare_antisym (x y : spec_float) :
  SFcompare y x = CompOpp <$> SFcompare x y.
Proof.
  destruct x as [[]|[]| |[] mx ex], y as [[]|[]| |[] my ey]; try reflexivity;
    cbn [SFcompare fmap option_fmap option_map];
    rewrite (Z.compare_antisym ex ey); destruct (ex ?= ey)%Z; cbn [CompOpp];
    try reflexivity; f_equal.
  all: by rewrite (Pos.compare_cont_antisym mx my Eq).
Qed.

Lemma SFltb_SFleb_false (x y : spec_float) : SFltb x y = true → SFleb y x = false.
Proof.
  unfold SFltb, SFleb. rewrite (SFcompare_antisym x y).
  by destruct (SFcompare x y) as [[]|].
Qed.

Lemma SFltb_false_SFleb (x y : spec_float) :
  x ≠ S754_nan → y ≠ S754_nan → SFltb x y = false → SFleb y x = true.
Proof.
  intros Hx Hy. unfold SFltb, SFleb. rewrite (SFcompare_antisym x y).
  destruct x, y; try done; by destruct (SFcompare _ _) as [[]|] eqn:H.
Qed.

(** Below -1 is not above +1. *)
Lemma SFltb_bounds (v : spec_float) :
  SFltb v (b64 (-1)) = true → SFltb (b64 1) v = false.
Proof.
  rewrite b64_minus_one, b64_one.
  by destruct v as [[]|[]| |[] m e].
Qed.

Lemma threshold_color_f_policy v :
  threshold_color_f v (if SFltb v (b64 (-1)) then color_better
                       else if SFltb (b64 1) v then color_worse else color_neutral).
Proof.
  unfold threshold_color_f.
  destruct (SFltb v (b64 (-1))) eqn:Hlo; [|destruct (SFltb (b64 1) v) eqn:Hhi].
  - split_and!; [done|..].
    + intros Hhi. by rewrite (SFltb_bounds v Hlo) in Hhi.
    + intros [Hge _]. by rewrite (SFltb_SFleb_false _ _ Hlo) in Hge.
  - split_and!; [done|done|].
    intros [_ Hle]. by rewrite (SFltb_SFleb_false _ _ Hhi) in Hle.
  - done.
Qed.

Lemma threshold_color_f_functional v c c' :
  v ≠ S754_nan → threshold_color_f v c → threshold_color_f v c' → c = c'.
Proof.
  intros Hv (H1 & H2 & H3) (H1' & H2' & H3').
  destruct (SFltb v (b64 (-1))) eqn:Hlo; [by rewrite H1, H1'|].
  destruct (SFltb (b64 1) v) eqn:Hhi; [by rewrite H2, H2'|].
  assert (SFleb (b64 (-1)) v = true ∧ SFleb v (b64 1) = true) as Hmid.
  { split; apply SFltb_false_SFleb; try done; by vm_compute. }
  by rewrite H3, H3'.
Qed.

(** C1. The colour of a bar is the three-way threshold function of its
    value alone: improved below -1, regressed above +1, neutral on
    [-1, +1] with both bounds included.  This is the colour list handed
    to [barh] for the sorted per-entry changes of chart 2 and for the
    category means of chart 4, which are floats. *)
Theorem color_assignment_three_way (r : Report) :
  (∀ vs, Forall2 threshold_color vs (bar_colors vs))
  ∧ (∀ ms, Forall2 threshold_color_f ms (cat_colors ms))
  ∧ (∀ v c c', threshold_color v c → threshold_color v c' → c = c')
  ∧ (∀ v c c', v ≠ S754_nan →
               threshold_color_f v c → threshold_color_f v c' → c = c')
  ∧ bar_colors [- qc 1; qc 1] = [color_neutral; color_neutral]
  ∧ cat_colors [b64 (-1); b64 1] = [color_neutral; color_neutral]
  ∧ (color_better ≠ color_neutral ∧ color_worse ≠ color_neutral
     ∧ color_better ≠ color_worse)
  ∧ (∃ fig sn vs rest,
        pct_change_figure r = Some fig
        ∧ sorted_changes (entries r) = Some vs
        ∧ axes fig = [barh_labelled sn vs (bar_colors vs) (qc 0.85) :: rest])
  ∧ (∃ fig labels ms rest,
        category_figure r = Some fig
        ∧ cat_avgs (entries r) = Some ms
        ∧ axes fig = [barh_labelled_f labels ms (cat_colors ms) (qc 0.85) :: rest]).
Proof.
  split_and!.
  - intros vs. apply Forall2_fmap_r, Forall_Forall2_diag, Forall_true.
    intros v. apply threshold_color_policy.
  - intros ms. apply Forall2_fmap_r, Forall_Forall2_diag, Forall_true.
    intros v. apply threshold_color_f_policy.
  - apply threshold_color_functional.
  - apply threshold_color_f_functional.
  - reflexivity.
  - by vm_compute.
  - done.
  - done.
  - done.
  - eexists _, _, _, _. split; [apply pct_change_figure_eq|].
    split; [apply sorted_changes_eq|done].
  - eexists _, _, _, _. split; [apply category_figure_eq|].
    split; [apply cat_avgs_eq|done].
Qed.

(** ** Rows of a categorical axis *)

Lemma index_of_None (y : string) (l : list string) : y ∉ l → index_of y l = None.
Proof.
  induction l as [|x l IH]; [done|]. intros [Hne Hl]%not_elem_of_cons.
  cbn [index_of]. rewrite decide_False by done. by rewrite IH.
Qed.

Lemma rows_from_NoDup (seen ys : list string) :
  NoDup (seen ++ ys) → rows_from seen ys = seq (length seen) (length ys).
Proof.
  revert seen. induction ys as [|y ys IH]; intros seen Hnd; [done|].
  cbn [rows_from length seq].
  rewrite index_of_None.
  - f_equal. rewrite (IH (seen ++ [y])%list).
    + rewrite length_app. simpl. by rewrite Nat.add_1_r.
    + by rewrite <-(assoc_L (++)).
  - apply NoDup_app in Hnd as (_ & Hnd & _). intros Hin.
    apply (Hnd y Hin). left.
Qed.

(** Distinct labels are drawn on consecutive rows, in list order. *)
Lemma category_rows_NoDup (ys : list string) :
  NoDup ys → category_rows ys = seq 0 (length ys).
Proof. intros Hnd. by apply (rows_from_NoDup [] ys). Qed.

(** C2: the claim fails on the code.  For the three benchmarks of
    [clash_entries], two of which share the display name "RunSuite",
    the bars are handed to [barh] in ascending order of their change
    (1, 2, 3), but the third bar is drawn on row 0, the row of the
    first, below the bar of value 2 on row 1; its value label is
    written at row 2, where no bar is. *)
Theorem equal_display_names_share_a_row :
  NoDup (name <$> clash_entries)
  ∧ ∃ fig sn vs colors rest,
      pct_change_figure clash_report = Some fig
      ∧ axes fig = [barh_labelled sn vs colors (qc 0.85) :: rest]
      ∧ sn = ["RunSuite"; "ParseRule"; "RunSuite"]
      ∧ vs = [qc 1; qc 2; qc 3]
      ∧ category_rows sn = [0; 1; 0]%nat
      ∧ text_rows rest = [0; 1; 2]%Z
      ∧ ∃ i j ri rj v w,
          category_rows sn !! i = Some ri ∧ category_rows sn !! j = Some rj
          ∧ vs !! i = Some v ∧ vs !! j = Some w
          ∧ (ri < rj)%nat ∧ w < v.
Proof.
  split; [apply (bool_decide_unpack _); by vm_compute|].
  eexists _, _, _, _, _. split; [reflexivity|]. split; [reflexivity|].
  split; [reflexivity|]. split; [reflexivity|]. split; [reflexivity|].
  split; [reflexivity|].
  exists 2%nat, 1%nat, 0%nat, 1%nat, (qc 3), (qc 2).
  split_and!; try reflexivity. lia.
Qed.


(** ** Chart 4: the rows *)




(** *** The row labels are distinct *)






(** ** The mean of a category *)



(** C10. Every key of the aggregation holds a non-empty list of values,
    so the mean divides by a positive length and never raises, and the
    count kept for the key, which the row label shows, is the number of
    values averaged. *)
Theorem rollup_division_safe (es : list Entry) (c : string) :
  c ∈ dict.keys (cat_changes es) →
  ∃ vs avgs labels,
    dict.get (cat_changes es) c = Some vs
    ∧ vs ≠ [] ∧ (0 < len vs)%Z
    ∧ truediv (sum vs) (len vs) = Some (float_mean vs)
    ∧ dict.get (cat_counts es) c = Some (len vs)
    ∧ cat_avgs es = Some avgs
    ∧ cat_labels es = Some labels
    ∧ ∀ i, cat_names es !! i = Some c →
           avgs !! i = Some (float_mean vs)
           ∧ labels !! i = Some (c +:+ " (n=" +:+ pretty (len vs) +:+ ")").
Proof.
  intros Hc%rollup_keys%members_nonempty.
  destruct (rollup_get es c) as [H1 H2].
  rewrite decide_False in H1 by done. rewrite decide_False in H2 by done.
  exists (members c es). eexists _, _.
  split; [done|]. split; [done|]. split.
  { unfold len. destruct (members c es); [done|]. simpl. lia. }
  split; [by apply truediv_mean|]. split; [done|].
  split; [apply cat_avgs_eq|]. split; [apply cat_labels_eq|].
  intros i Hi. by rewrite !list_lookup_fmap, Hi.
Qed.

Lemma rollup_division_safe_witness :
  ∃ vs avgs labels,
    dict.get (cat_changes sample_entries) "http" = Some vs
    ∧ vs ≠ [] ∧ (0 < len vs)%Z
    ∧ truediv (sum vs) (len vs) = Some (float_mean vs)
    ∧ dict.get (cat_counts sample_entries) "http" = Some (len vs)
    ∧ cat_avgs sample_entries = Some avgs
    ∧ cat_labels sample_entries = Some labels
    ∧ ∀ i, cat_names sample_entries !! i = Some "http" →
           avgs !! i = Some (float_mean vs)
           ∧ labels !! i = Some ("http" +:+ " (n=" +:+ pretty (len vs) +:+ ")").
Proof.
  apply (rollup_division_safe sample_entries "http").
  vm_compute. left.
Defined.

(** C4 fails as stated: a name that does not begin with the token still
    loses an occurrence further in, and a name that begins with it
    loses every occurrence, not just the leading one. *)
Lemma display_name_not_prefix_strip :
  display_name suite_entry ≠ strip_prefix "Benchmark" (name suite_entry)
  ∧ String.prefix "Benchmark" "ParseBenchmarkRule" = false
  ∧ str.replace "Benchmark" "" "ParseBenchmarkRule" ≠ "ParseBenchmarkRule".
Proof. vm_compute. by split_and!. Qed.

(** C4, amended. The display name is the name with every occurrence of
    "Benchmark" removed, scanning from the left: a leading token is
    dropped and the rest is treated the same way, a character that does
    not start the token is kept; so "BenchmarkFooBar" shows as "FooBar"
    and a name in which the token does not occur is unchanged. *)
Theorem display_name_removes_every_token :
  (∀ es, names es = display_name <$> es)
  ∧ (∀ e, display_name e = str.replace "Benchmark" "" (name e))
  ∧ str.replace "Benchmark" "" "BenchmarkFooBar" = "FooBar"
  ∧ (∀ s, str.replace "Benchmark" "" ("Benchmark" +:+ s) = str.replace "Benchmark" "" s)
  ∧ (∀ c s, String.prefix "Benchmark" (String c s) = false →
            str.replace "Benchmark" "" (String c s)
            = String c (str.replace "Benchmark" "" s))
  ∧ (∀ s, (∀ pre post, s ≠ pre +:+ "Benchmark" +:+ post) →
          str.replace "Benchmark" "" s = s).
Proof.
  split_and!; [done|done|by vm_compute|..].
  - intros s. by rewrite replace_prefix.
  - intros c s. apply replace_no_match.
  - intros s. by apply replace_absent.
Qed.

Lemma write_all_lookup_is_Some render l m k :
  k ∈ l.*1 → is_Some (write_all render l m !! k).
Proof.
  revert m. induction l as [|x l IH]; intros m Hk.
  { by apply elem_of_nil in Hk. }
  destruct (decide (k ∈ l.*1)) as [Hin|Hnotin].
  - unfold write_all in *. simpl. by apply IH.
  - apply elem_of_cons in Hk as [->|?]; [|done].
    change (is_Some (write_all render l (<[x.1:=render x.2.1 x.2.2]> m) !! x.1)).
    rewrite write_all_lookup_notin by done. rewrite lookup_insert_eq. by eexists.
Qed.

(** The four chart paths are different files. *)
Lemma chart_paths_NoDup p : NoDup (chart_paths p).
Proof.
  unfold chart_paths. generalize (output_dir p). intros out.
  assert (NoDup chart_files) as Hfiles.
  { apply (bool_decide_unpack _). by vm_compute. }
  unfold chart_files in *. cbn [fmap list_fmap ospath.join].
  replace (ospath.is_sep "n") with false by done.
  replace (ospath.is_sep "p") with false by done.
  replace (ospath.is_sep "a") with false by done.
  replace (ospath.is_sep "c") with false by done.
  destruct (bool_decide (out = "") || ospath.ends_with_sep out).
  - by apply (NoDup_fmap_2 (String.app out)) in Hfiles.
  - by apply (NoDup_fmap_2 (String.app "/")), (NoDup_fmap_2 (String.app out)) in Hfiles.
Qed.

(** C5. On a well-formed report without entries the script prints the
    "no entries" message and exits with status 1; no renderer runs and
    no image file is written. *)
Theorem empty_entries_exit_without_charts
    (render : Figure → Z → bytes) (env : Env) (p : string) (r : Report) (w : World) :
  argv env !! 1%nat = Some p →
  matplotlib_importable env = true →
  load_json env p = Some r →
  entries r = [] →
  main env = ([Makedirs (output_dir p);
               Print [Lit "No benchmark entries found in the report."]],
              inl (SysExit 1))
  ∧ exit_status (main env) ≠ 0%Z
  ∧ saved_figures (main env).1 = []
  ∧ files (run render env w) = files w.
Proof.
  intros Hargv Hmpl Hload Hes.
  pose proof (main_no_entries env p r Hargv Hmpl Hload Hes) as Hmain.
  split; [done|]. unfold run. rewrite exec_files, Hmain. by split_and!.
Qed.

Lemma empty_entries_exit_without_charts_witness :
  main empty_env
  = ([Makedirs (output_dir "results/comparison.json");
      Print [Lit "No benchmark entries found in the report."]],
     inl (SysExit 1))
  ∧ exit_status (main empty_env) ≠ 0%Z
  ∧ saved_figures (main empty_env).1 = []
  ∧ files (run blank_backend empty_env empty_world) = files empty_world.
Proof.
  apply (empty_entries_exit_without_charts
           blank_backend empty_env "results/comparison.json" empty_report empty_world);
    reflexivity.
Defined.

(** C6 fails as stated: without matplotlib the run still creates the
    charts directory before it exits. *)
Lemma missing_matplotlib_creates_chart_dir :
  check_matplotlib bare_env = false
  ∧ exit_status (main bare_env) = 1%Z
  ∧ ("results/charts" ∉ dirs empty_world)
  ∧ "results/charts" ∈ dirs (run blank_backend bare_env empty_world).
Proof.
  split; [done|]. split; [done|]. split.
  - apply not_elem_of_empty.
  - unfold run. rewrite exec_dirs. apply elem_of_union_l.
    apply (bool_decide_unpack _). by vm_compute.
Qed.

(** C6, amended. Without matplotlib the script creates the charts
    directory if it is missing, prints the install instruction and
    exits with status 1; no image file is written and no existing file
    is changed. *)
Theorem missing_matplotlib_exit
    (render : Figure → Z → bytes) (env : Env) (p : string) (w : World) :
  argv env !! 1%nat = Some p →
  check_matplotlib env = false →
  main env = ([Makedirs (output_dir p);
               Print [Lit "matplotlib is required. Install with: pip install matplotlib"]],
              inl (SysExit 1))
  ∧ exit_status (main env) ≠ 0%Z
  ∧ saved_figures (main env).1 = []
  ∧ files (run render env w) = files w
  ∧ dirs (run render env w)
    = list_to_set (ospath.dirs_upto "" (output_dir p)) ∪ dirs w.
Proof.
  intros Hargv Hmpl.
  pose proof (main_no_matplotlib env p Hargv Hmpl) as Hmain.
  split; [done|]. unfold run. rewrite exec_files, exec_dirs, Hmain.
  split_and!; [done..|].
  unfold made_dirs. simpl. by rewrite !(right_id_L ∅ (∪)).
Qed.

Lemma missing_matplotlib_exit_witness :
  main bare_env
  = ([Makedirs (output_dir "results/comparison.json");
      Print [Lit "matplotlib is required. Install with: pip install matplotlib"]],
     inl (SysExit 1))
  ∧ exit_status (main bare_env) ≠ 0%Z
  ∧ saved_figures (main bare_env).1 = []
  ∧ files (run blank_backend bare_env empty_world) = files empty_world
  ∧ dirs (run blank_backend bare_env empty_world)
    = list_to_set (ospath.dirs_upto "" (output_dir "results/comparison.json"))
      ∪ dirs empty_world.
Proof.
  apply (missing_matplotlib_exit blank_backend bare_env "results/comparison.json"
           empty_world); reflexivity.
Defined.


(** ** Rows in input order *)

Lemma range_lookup (n : Z) (i : nat) :
  (Z.of_nat i < n)%Z → range n !! i = Some (Z.of_nat i).
Proof. intros Hi. unfold range. by rewrite lookup_seqZ_lt. Qed.

Lemma Qclt_by_difference (p q d : Qc) : q + - p = d → 0 < d → p < q.
Proof. intros <- H. by apply Qclt_minus_iff. Qed.

(** Two series drawn at [i - d] and [i + d], with ticks at [i], lay out
    the entries in input order. *)
Lemma entries_paired_rows (d : Qc) (f : Entry → string) (g h : Entry → Qc)
    (es : list Entry) :
  0 < d → d < qc 0.5 →
  paired_rows ((λ i, Qc_of_Z i - d) <$> range (len (f <$> es)))
              ((λ i, Qc_of_Z i + d) <$> range (len (f <$> es)))
              (g <$> es) (h <$> es) (range (len (f <$> es))) (f <$> es)
              ((λ e, (f e, (g e, h e))) <$> es).
Proof.
  intros Hd Hd'.
  assert (length (range (len (f <$> es))) = length es) as Hlen.
  { unfold range, len. rewrite length_seqZ, length_fmap. lia. }
  unfold paired_rows.
  split; [by rewrite !length_fmap|]. split; [by rewrite !length_fmap|].
  split; [by rewrite !length_fmap|]. split; [by rewrite !length_fmap|].
  split; [by rewrite length_fmap|]. split; [by rewrite !length_fmap|].
  intros i label o n. rewrite list_lookup_fmap.
  destruct (es !! i) as [e|] eqn:He; [|done]. intros [= <- <- <-].
  assert (range (len (f <$> es)) !! i = Some (Z.of_nat i)) as Hi.
  { apply range_lookup. unfold len. rewrite length_fmap.
    apply lookup_lt_Some in He. lia. }
  rewrite !list_lookup_fmap, He, Hi. simpl.
  split; [done|]. split; [done|]. split; [done|]. split; [done|].
  eexists _, _. split; [done|]. split; [done|].
  set (a := Qc_of_Z (Z.of_nat i)).
  apply Qclt_minus_iff in Hd'.
  split_and!.
  - apply (Qclt_by_difference _ _ (qc 0.5 + - d)); [ring|done].
  - apply (Qclt_by_difference _ _ d); [ring|done].
  - apply (Qclt_by_difference _ _ d); [ring|done].
  - apply (Qclt_by_difference _ _ (qc 0.5 + - d)); [ring|done].
Qed.

Lemma renderers_keep_inputs :
  Forall keeps_inputs
         [render_comparison; render_delta; render_allocations; render_categories].
Proof.
  repeat apply Forall_cons_2; [..|apply Forall_nil_2]; intros out st.
  - done.
  - unfold render_delta.
    destruct (sort_by_change (v_pct_changes st)) as [ix|]; [|done].
    cbn [try]. rewrite bind_ret.
    destruct (select (v_names st) ix) as [sn|]; [|done].
    cbn [try]. rewrite bind_ret.
    destruct (select (v_pct_changes st) ix) as [sc|]; [|done].
    cbn [try]. by rewrite bind_ret.
  - done.
  - unfold render_categories. cbv zeta.
    destruct (averages _ _) as [avgs|]; [|done].
    cbn [try]. rewrite bind_ret.
    destruct (row_labels _ _) as [labels|]; [|done].
    cbn [try]. by rewrite bind_ret.
Qed.

Lemma main_state_complete env p r st :
  argv env !! 1%nat = Some p → load_json env p = Some r →
  (main_state env).2 = inr st →
  matplotlib_importable env = true ∧ entries r ≠ [].
Proof.
  intros (a0 & rest & Hargv)%argv_path Hload. unfold main_state, check_matplotlib.
  rewrite Hargv. destruct (matplotlib_importable env); [|done].
  rewrite Hload. cbn [negb try]. unfold emit at 1. rewrite bind_value, bind_ret.
  by destruct (entries r).
Qed.

(** C7. No renderer changes the report or the lists prepared from it,
    whatever it assigns to its own variables: the sorted order of
    chart 2 lives in [sorted_names] and [sorted_changes], and a run
    that completes ends with the report as loaded and [names] in input
    order.  Chart 1 and both panels of chart 3, saved before and after
    the sorted chart 2, have one row per entry in input order: the
    tick of row [i] is at [i] and carries the display name of entry
    [i], and the two bars drawn around [i] have the old and the new
    value of entry [i]. *)
Theorem allocation_rows_in_input_order
    (env : Env) (p : string) (r : Report) (st : Locals) :
  argv env !! 1%nat = Some p →
  load_json env p = Some r →
  (main_state env).2 = inr st →
  Forall keeps_inputs
         [render_comparison; render_delta; render_allocations; render_categories]
  ∧ v_report st = r
  ∧ v_names st = (λ e, str.replace "Benchmark" "" (name e)) <$> entries r
  ∧ sorted_names (entries r) = Some (v_sorted_names st)
  ∧ sorted_changes (entries r) = Some (v_sorted_changes st)
  ∧ ∃ fig1 fig2 fig3 fig4 top left right,
      saved_figures (main env).1
      = zip (chart_paths p) [(fig1, 150%Z); (fig2, 150%Z); (fig3, 150%Z); (fig4, 150%Z)]
      ∧ axes fig1 = [top]
      ∧ axes fig3 = [left; right]
      ∧ paired_panel top
          ((λ e, (str.replace "Benchmark" "" (name e),
                  (old_ns_per_op e, new_ns_per_op e))) <$> entries r)
      ∧ paired_panel left
          ((λ e, (str.replace "Benchmark" "" (name e),
                  (old_bytes_per_op e, new_bytes_per_op e))) <$> entries r)
      ∧ paired_panel right
          ((λ e, (str.replace "Benchmark" "" (name e),
                  (old_allocs_per_op e, new_allocs_per_op e))) <$> entries r).
Proof.
  intros Hargv Hload Hst. split; [apply renderers_keep_inputs|].
  destruct (main_state_complete env p r st Hargv Hload Hst) as [Hmpl Hes].
  destruct (main_state_success env p r Hargv Hmpl Hload Hes)
    as (fig2 & fig4 & H2 & H4 & Hmain).
  destruct (main_success env p r Hargv Hmpl Hload Hes)
    as (fig2' & fig4' & H2' & H4' & _ & _ & Hsaved).
  rewrite Hmain in Hst. injection Hst as <-.
  split; [done|]. split; [done|].
  split; [apply sorted_names_eq|]. split; [apply sorted_changes_eq|].
  exists (ns_per_op_figure r), fig2', (allocs_figure r), fig4'.
  eexists _, _, _.
  split; [exact Hsaved|]. split; [reflexivity|]. split; [reflexivity|].
  split_and!; eexists _, _, _, _, _, _;
    (split; [reflexivity|]); (split; [reflexivity|]);
    (split; [reflexivity|]); (split; [reflexivity|]).
  - by apply (entries_paired_rows (width / qc 2)
                (λ e, str.replace "Benchmark" "" (name e)) old_ns_per_op new_ns_per_op).
  - by apply (entries_paired_rows (qc 0.15)
                (λ e, str.replace "Benchmark" "" (name e))
                old_bytes_per_op new_bytes_per_op).
  - by apply (entries_paired_rows (qc 0.15)
                (λ e, str.replace "Benchmark" "" (name e))
                old_allocs_per_op new_allocs_per_op).
Qed.

Lemma allocation_rows_in_input_order_witness :
  Forall keeps_inputs
         [render_comparison; render_delta; render_allocations; render_categories]
  ∧ v_report (final_store sample_report) = sample_report
  ∧ v_names (final_store sample_report)
    = (λ e, str.replace "Benchmark" "" (name e)) <$> entries sample_report
  ∧ sorted_names (entries sample_report)
    = Some (v_sorted_names (final_store sample_report))
  ∧ sorted_changes (entries sample_report)
    = Some (v_sorted_changes (final_store sample_report))
  ∧ ∃ fig1 fig2 fig3 fig4 top left right,
      saved_figures (main sample_env).1
      = zip (chart_paths "results/comparison.json")
            [(fig1, 150%Z); (fig2, 150%Z); (fig3, 150%Z); (fig4, 150%Z)]
      ∧ axes fig1 = [top]
      ∧ axes fig3 = [left; right]
      ∧ paired_panel top
          ((λ e, (str.replace "Benchmark" "" (name e),
                  (old_ns_per_op e, new_ns_per_op e))) <$> entries sample_report)
      ∧ paired_panel left
          ((λ e, (str.replace "Benchmark" "" (name e),
                  (old_bytes_per_op e, new_bytes_per_op e))) <$> entries sample_report)
      ∧ paired_panel right
          ((λ e, (str.replace "Benchmark" "" (name e),
                  (old_allocs_per_op e, new_allocs_per_op e))) <$> entries sample_report).
Proof.
  apply (allocation_rows_in_input_order sample_env "results/comparison.json"
           sample_report (final_store sample_report)); [reflexivity..|].
  by vm_compute.
Defined.

(** C8. Two runs on the same document write the same four files with
    the same contents, whatever the directory held before: the second
    run saves the figures of the first, each chart file holds the same
    bytes after either run, and running again over the result of a run
    changes neither the files nor the directories. *)
Theorem rerun_overwrites_same_charts
    (render : Figure → Z → bytes) (env1 env2 : Env) (p : string) (r : Report) :
  argv env1 !! 1%nat = Some p →
  argv env2 !! 1%nat = Some p →
  matplotlib_importable env1 = true →
  matplotlib_importable env2 = true →
  load_json env1 p = Some r →
  load_json env2 p = Some r →
  entries r ≠ [] →
  NoDup (chart_paths p)
  ∧ length (chart_paths p) = 4%nat
  ∧ (saved_figures (main env1).1).*1 = chart_paths p
  ∧ saved_figures (main env2).1 = saved_figures (main env1).1
  ∧ (∀ w1 w2 path,
       path ∈ chart_paths p →
       is_Some (files (run render env1 w1) !! path)
       ∧ files (run render env2 w2) !! path = files (run render env1 w1) !! path)
  ∧ (∀ w,
       files (run render env2 (run render env1 w)) = files (run render env1 w)
       ∧ dirs (run render env2 (run render env1 w)) = dirs (run render env1 w)).
Proof.
  intros Hargv1 Hargv2 Hmpl1 Hmpl2 Hload1 Hload2 Hes.
  destruct (main_success env1 p r Hargv1 Hmpl1 Hload1 Hes)
    as (fig2 & fig4 & H2 & H4 & _ & Hdirs1 & Hsaved1).
  destruct (main_success env2 p r Hargv2 Hmpl2 Hload2 Hes)
    as (fig2' & fig4' & H2' & H4' & _ & Hdirs2 & Hsaved2).
  assert (fig2' = fig2) as -> by congruence.
  assert (fig4' = fig4) as -> by congruence.
  assert ((saved_figures (main env1).1).*1 = chart_paths p) as Hpaths.
  { rewrite Hsaved1. by apply fst_zip. }
  split; [apply chart_paths_NoDup|]. split; [done|]. split; [done|].
  split; [by rewrite Hsaved1, Hsaved2|]. split.
  - intros w1 w2 path Hpath. unfold run. rewrite !exec_files, Hsaved2, <-Hsaved1.
    rewrite <-Hpaths in Hpath. split.
    + by apply write_all_lookup_is_Some.
    + by apply write_all_lookup_in.
  - intros w. unfold run. rewrite !exec_files, !exec_dirs, Hsaved2, <-Hsaved1.
    split; [apply write_all_idemp|].
    rewrite Hdirs1, Hdirs2, (assoc_L (∪)). by rewrite (idemp_L (∪)).
Qed.

Lemma rerun_overwrites_same_charts_witness :
  NoDup (chart_paths "results/comparison.json")
  ∧ length (chart_paths "results/comparison.json") = 4%nat
  ∧ (saved_figures (main sample_env).1).*1 = chart_paths "results/comparison.json"
  ∧ saved_figures (main rerun_env).1 = saved_figures (main sample_env).1
  ∧ (∀ w1 w2 path,
       path ∈ chart_paths "results/comparison.json" →
       is_Some (files (run blank_backend sample_env w1) !! path)
       ∧ files (run blank_backend rerun_env w2) !! path
         = files (run blank_backend sample_env w1) !! path)
  ∧ (∀ w,
       files (run blank_backend rerun_env (run blank_backend sample_env w))
       = files (run blank_backend sample_env w)
       ∧ dirs (run blank_backend rerun_env (run blank_backend sample_env w))
         = dirs (run blank_backend sample_env w)).
Proof.
  apply (rerun_overwrites_same_charts blank_backend sample_env rerun_env
           "results/comparison.json" sample_report);
    [reflexivity..|discriminate].
Defined.

(** * Further properties *)

(** ** The ways a run ends *)

(** X1. Without a path argument the script prints the four usage lines,
    the last one naming the command that generates the report, and
    exits with status 1 before touching the file system: no directory
    is created and no file is written. *)
Theorem usage_error_touches_nothing
    (render : Figure → Z → bytes) (env : Env) (w : World) :
  (length (argv env) < 2)%nat →
  main env
  = (Print <$> [ [Lit "Usage: python3 hack/visualize-benchmarks.py <comparison.json>"];
                 [Lit ""];
                 [Lit "Generate the JSON first:"];
                 [Lit "  go run hack/benchanalyze/main.go -old results/go-1.25.5.txt -new results/go-1.26.txt -output results/"] ],
     inl (SysExit 1))
  ∧ exit_status (main env) = 1%Z
  ∧ files (run render env w) = files w
  ∧ dirs (run render env w) = dirs w.
Proof.
  intros Hlen.
  assert (main env
          = (Print <$> [ [Lit "Usage: python3 hack/visualize-benchmarks.py <comparison.json>"];
                         [Lit ""];
                         [Lit "Generate the JSON first:"];
                         [Lit "  go run hack/benchanalyze/main.go -old results/go-1.25.5.txt -new results/go-1.26.txt -output results/"] ],
             inl (SysExit 1))) as Hmain.
  { unfold main, main_state. destruct (argv env) as [|a0 [|p rest]]; [done|done|].
    simpl in Hlen. lia. }
  split; [done|]. unfold run. rewrite exec_files, exec_dirs, Hmain.
  split; [done|]. split; [done|].
  unfold made_dirs. simpl. by rewrite !(left_id_L ∅ (∪)).
Qed.

Lemma usage_error_touches_nothing_witness :
  main no_arg_env
  = (Print <$> [ [Lit "Usage: python3 hack/visualize-benchmarks.py <comparison.json>"];
                 [Lit ""];
                 [Lit "Generate the JSON first:"];
                 [Lit "  go run hack/benchanalyze/main.go -old results/go-1.25.5.txt -new results/go-1.26.txt -output results/"] ],
     inl (SysExit 1))
  ∧ exit_status (main no_arg_env) = 1%Z
  ∧ files (run blank_backend no_arg_env empty_world) = files empty_world
  ∧ dirs (run blank_backend no_arg_env empty_world) = dirs empty_world.
Proof.
  apply (usage_error_touches_nothing blank_backend no_arg_env empty_world).
  simpl. lia.
Defined.

(** X2. When [open] or [json.load] raises (the file cannot be opened,
    or its content is not JSON) the exception is not caught: the run
    stops right after creating the charts directory, prints nothing,
    writes no image and ends with status 1. *)
Theorem unreadable_document_aborts
    (render : Figure → Z → bytes) (env : Env) (p : string) (w : World) :
  argv env !! 1%nat = Some p →
  check_matplotlib env = true →
  load_json env p = None →
  main env = ([Makedirs (output_dir p)], inl (Uncaught LoadError))
  ∧ exit_status (main env) = 1%Z
  ∧ printed (main env).1 = []
  ∧ files (run render env w) = files w
  ∧ stdout (run render env w) = stdout w.
Proof.
  intros (a0 & rest & Hargv)%argv_path Hmpl Hload.
  assert (main env = ([Makedirs (output_dir p)], inl (Uncaught LoadError))) as Hmain.
  { unfold main, main_state. unfold check_matplotlib in *.
    by rewrite Hargv, Hmpl, Hload. }
  split; [done|]. unfold run. by rewrite exec_files, Hmain.
Qed.

Lemma unreadable_document_aborts_witness :
  main unreadable_env
  = ([Makedirs (output_dir "results/comparison.json")], inl (Uncaught LoadError))
  ∧ exit_status (main unreadable_env) = 1%Z
  ∧ printed (main unreadable_env).1 = []
  ∧ files (run blank_backend unreadable_env empty_world) = files empty_world
  ∧ stdout (run blank_backend unreadable_env empty_world) = stdout empty_world.
Proof.
  apply (unreadable_document_aborts blank_backend unreadable_env
           "results/comparison.json" empty_world); reflexivity.
Defined.

(** ** Where the charts are written *)

Lemma ends_with_sep_app (a : string) (c : ascii) (b : string) :
  ospath.ends_with_sep (a +:+ String c b) = ospath.ends_with_sep (String c b).
Proof.
  induction a as [|x a IH]; [done|].
  rewrite app_cons. cbn [ospath.ends_with_sep].
  destruct (a +:+ String c b) eqn:Happ; [by destruct a|]. exact IH.
Qed.

Lemma string_app_nil_r (s : string) : s +:+ "" = s.
Proof. induction s as [|c s IH]; [done|]. by rewrite app_cons, IH. Qed.

Lemma string_app_snoc (a : string) (c : ascii) (b : string) :
  (a +:+ String c "") +:+ b = a +:+ String c b.
Proof. induction a as [|x a IH]; [done|]. by rewrite !app_cons, IH. Qed.

Lemma dirs_upto_self (pre p : string) : pre +:+ p ∈ ospath.dirs_upto pre p.
Proof.
  revert pre. induction p as [|c p IH]; intros pre.
  - rewrite string_app_nil_r. left.
  - cbn [ospath.dirs_upto]. apply elem_of_app. right.
    rewrite <-string_app_snoc. apply IH.
Qed.

(** The output directory is never empty and never ends with a slash. *)
Lemma output_dir_shape (p : string) :
  output_dir p ≠ "" ∧ ospath.ends_with_sep (output_dir p) = false.
Proof.
  unfold output_dir, ospath.join.
  replace (ospath.is_sep "c") with false by done.
  destruct (bool_decide (ospath.dirname p = "") || ospath.ends_with_sep (ospath.dirname p));
    (split; [by destruct (ospath.dirname p)|]).
  - by rewrite ends_with_sep_app.
  - replace ("/" +:+ "charts") with (String "/" "charts") by done.
    rewrite ends_with_sep_app. done.
Qed.

(** X11. Every chart is written directly into the charts directory, one
    level below it, and this directory is among those the run has made
    sure exist before the first chart is saved. *)
Theorem charts_land_in_created_directory (env : Env) (p : string) (r : Report) :
  argv env !! 1%nat = Some p →
  matplotlib_importable env = true →
  load_json env p = Some r →
  entries r ≠ [] →
  head (main env).1 = Some (Makedirs (output_dir p))
  ∧ output_dir p ∈ made_dirs (main env).1
  ∧ (saved_figures (main env).1).*1
    = (λ file, output_dir p +:+ "/" +:+ file) <$> chart_files.
Proof.
  intros Hargv Hmpl Hload Hes.
  destruct (main_success env p r Hargv Hmpl Hload Hes)
    as (fig2 & fig4 & _ & _ & _ & Hdirs & Hsaved).
  split; [by rewrite (main_success_trace env p r)|]. split.
  - rewrite Hdirs. apply elem_of_list_to_set.
    apply (dirs_upto_self "" (output_dir p)).
  - rewrite Hsaved, fst_zip by done.
    destruct (output_dir_shape p) as [Hne Hsep].
    unfold chart_paths, chart_files. cbn [fmap list_fmap ospath.join].
    replace (ospath.is_sep "n") with false by done.
    replace (ospath.is_sep "p") with false by done.
    replace (ospath.is_sep "a") with false by done.
    replace (ospath.is_sep "c") with false by done.
    rewrite Hsep, orb_false_r. by rewrite bool_decide_eq_false_2.
Qed.

Lemma charts_land_in_created_directory_witness :
  head (main sample_env).1 = Some (Makedirs (output_dir "results/comparison.json"))
  ∧ output_dir "results/comparison.json" ∈ made_dirs (main sample_env).1
  ∧ (saved_figures (main sample_env).1).*1
    = (λ file, output_dir "results/comparison.json" +:+ "/" +:+ file) <$> chart_files.
Proof.
  apply (charts_land_in_created_directory sample_env "results/comparison.json"
           sample_report); [reflexivity..|discriminate].
Defined.

(** ** Arguments handed to the plotting calls *)

Lemma omap_imap_None {A B C} (f : B → option C) (g : nat → A → B) (l : list A) :
  (∀ i x, f (g i x) = None) → omap f (imap g l) = [].
Proof.
  revert g. induction l as [|x l IH]; intros g Hg; [done|].
  simpl. rewrite Hg. apply IH. intros i y. apply Hg.
Qed.

Lemma value_labels_shape offset fontsize fontweight (vs : list Qc) :
  Forall (λ c, call_shape_ok c = true) (value_labels offset fontsize fontweight vs)
  ∧ omap call_ticks (value_labels offset fontsize fontweight vs) = []
  ∧ omap call_ticklabels (value_labels offset fontsize fontweight vs) = [].
Proof.
  unfold value_labels. split_and!; [|by apply omap_imap_None..].
  apply Forall_lookup. by intros i c (v & _ & ->)%list_lookup_imap_Some.
Qed.

Lemma mean_labels_shape offset fontsize fontweight (vs : list spec_float) :
  Forall (λ c, call_shape_ok c = true) (mean_labels offset fontsize fontweight vs)
  ∧ omap call_ticks (mean_labels offset fontsize fontweight vs) = []
  ∧ omap call_ticklabels (mean_labels offset fontsize fontweight vs) = [].
Proof.
  unfold mean_labels. split_and!; [|by apply omap_imap_None..].
  apply Forall_lookup. by intros i c (v & _ & ->)%list_lookup_imap_Some.
Qed.

Lemma labelled_panel_shape (c1 c2 c3 c4 c5 : Call) (tail : list Call) :
  call_shape_ok c1 = true → call_shape_ok c2 = true → call_shape_ok c3 = true →
  call_shape_ok c4 = true → call_shape_ok c5 = true →
  call_ticks <$> [c1; c2; c3; c4; c5] = [None; None; None; None; None] →
  call_ticklabels <$> [c1; c2; c3; c4; c5] = [None; None; None; None; None] →
  Forall (λ c, call_shape_ok c = true) tail
  ∧ omap call_ticks tail = [] ∧ omap call_ticklabels tail = [] →
  let panel := c1 :: c2 :: c3 :: c4 :: c5 :: tail in
  Forall (λ c, call_shape_ok c = true) panel ∧ panel_ticks_ok panel = true.
Proof.
  intros H1 H2 H3 H4 H5 [= T1 T2 T3 T4 T5] [= L1 L2 L3 L4 L5] (Hs & Ht & Hl).
  split.
  - by repeat apply Forall_cons_2.
  - unfold panel_ticks_ok. apply bool_decide_eq_true.
    change (c1 :: c2 :: c3 :: c4 :: c5 :: tail)
      with ([c1; c2; c3; c4; c5] ++ tail)%list.
    rewrite !omap_app, Ht, Hl. simpl.
    by rewrite T1, T2, T3, T4, T5, L1, L2, L3, L4, L5.
Qed.

(** X7. No drawing call is given lists of different lengths: in all
    four charts every [bar] and [barh] call has one position per value
    (and one colour per value where colours are a list), and every
    panel sets as many tick labels as ticks. *)
Theorem drawing_calls_well_shaped (r : Report) :
  ∃ fig2 fig4,
    pct_change_figure r = Some fig2
    ∧ category_figure r = Some fig4
    ∧ Forall (λ fig, Forall (λ panel,
                               Forall (λ c, call_shape_ok c = true) panel
                               ∧ panel_ticks_ok panel = true)
                            (axes fig))
             [ns_per_op_figure r; fig2; allocs_figure r; fig4].
Proof.
  eexists _, _. split; [apply pct_change_figure_eq|].
  split; [apply category_figure_eq|].
  assert (length (range (len (names (entries r)))) = length (entries r)) as Hlen.
  { unfold range, len, names. rewrite length_seqZ, length_fmap. lia. }
  assert (∀ f : Z → Qc, length (f <$> range (len (names (entries r))))
                        = length (entries r)) as Hpos.
  { intros f. by rewrite length_fmap. }
  repeat apply Forall_cons_2; try apply Forall_nil_2.
  - split.
    + repeat apply Forall_cons_2; try done; cbn [call_shape_ok];
        apply bool_decide_eq_true; unfold old_ns, new_ns; by rewrite Hpos, length_fmap.
    + apply bool_decide_eq_true.
      cbn [omap list_omap call_ticks call_ticklabels fmap list_fmap].
      unfold names at 2. by rewrite Hlen, length_fmap.
  - apply labelled_panel_shape; try done; [|apply value_labels_shape].
    cbn [call_shape_ok]. unfold bar_colors.
    by rewrite !length_fmap, !bool_decide_eq_true_2.
  - unfold alloc_panel. split.
    + repeat apply Forall_cons_2; try done; cbn [call_shape_ok];
        apply bool_decide_eq_true; unfold old_bytes, new_bytes; by rewrite Hpos, length_fmap.
    + apply bool_decide_eq_true.
      cbn [omap list_omap call_ticks call_ticklabels fmap list_fmap].
      unfold names at 2. by rewrite Hlen, length_fmap.
  - unfold alloc_panel. split.
    + repeat apply Forall_cons_2; try done; cbn [call_shape_ok];
        apply bool_decide_eq_true; unfold old_allocs, new_allocs; by rewrite Hpos, length_fmap.
    + apply bool_decide_eq_true.
      cbn [omap list_omap call_ticks call_ticklabels fmap list_fmap].
      unfold names at 2. by rewrite Hlen, length_fmap.
  - apply labelled_panel_shape; try done; [|apply mean_labels_shape].
    cbn [call_shape_ok]. unfold cat_colors.
    by rewrite !length_fmap, !bool_decide_eq_true_2.
Qed.

(** ** Canvas sizes *)

Lemma py_max_threshold (m s : Qc) (t n : Z) :
  0 < s → Qc_of_Z t * s ≤ m → m < Qc_of_Z (t + 1) * s →
  ((n ≤ t)%Z → py_max m (Qc_of_Z n * s) = m)
  ∧ ((t + 1 ≤ n)%Z → py_max m (Qc_of_Z n * s) = Qc_of_Z n * s ∧ m < Qc_of_Z n * s).
Proof.
  intros Hs Hlo Hhi. unfold py_max, num_lt. split.
  - intros Hn. rewrite bool_decide_eq_false_2; [done|].
    apply Qcle_not_lt. etrans; [|exact Hlo].
    apply Qcmult_le_mono_nonneg_r; [by apply Qclt_le_weak|by apply (proj1 (Z2Qc_inj_le _ _))].
  - intros Hn.
    assert (m < Qc_of_Z n * s) as Hlt.
    { eapply Qclt_le_trans; [exact Hhi|].
      apply Qcmult_le_mono_nonneg_r; [by apply Qclt_le_weak|by apply (proj1 (Z2Qc_inj_le _ _))]. }
    by rewrite bool_decide_eq_true_2.
Qed.

(** X8. The canvas keeps its base size for small inputs and grows in
    proportion beyond a threshold: chart 1 is 14 wide up to 17 entries
    and 0.8 per entry from 18 on; chart 2 is 6 high up to 17 entries
    and 0.35 per entry from 18 on; chart 3 is 6 high up to 20 entries
    and 0.3 per entry from 21 on; chart 4 is 4 high up to 6 categories
    and 0.6 per category from 7 on.  The other dimension is fixed. *)
Theorem canvas_sizes (r : Report) :
  ∃ fig2 fig4,
    pct_change_figure r = Some fig2
    ∧ category_figure r = Some fig4
    ∧ (figsize (ns_per_op_figure r)).2 = qc 8
    ∧ (figsize fig2).1 = qc 12
    ∧ (figsize (allocs_figure r)).1 = qc 18
    ∧ (figsize fig4).1 = qc 10
    ∧ ((len (entries r) ≤ 17)%Z →
         (figsize (ns_per_op_figure r)).1 = qc 14 ∧ (figsize fig2).2 = qc 6)
    ∧ ((18 ≤ len (entries r))%Z →
         (figsize (ns_per_op_figure r)).1 = Qc_of_Z (len (entries r)) * qc 0.8
         ∧ (figsize fig2).2 = Qc_of_Z (len (entries r)) * qc 0.35)
    ∧ ((len (entries r) ≤ 20)%Z → (figsize (allocs_figure r)).2 = qc 6)
    ∧ ((21 ≤ len (entries r))%Z →
         (figsize (allocs_figure r)).2 = Qc_of_Z (len (entries r)) * qc 0.3)
    ∧ ((len (cat_names (entries r)) ≤ 6)%Z → (figsize fig4).2 = qc 4)
    ∧ ((7 ≤ len (cat_names (entries r)))%Z →
         (figsize fig4).2 = Qc_of_Z (len (cat_names (entries r))) * qc 0.6).
Proof.
  eexists _, _. split; [apply pct_change_figure_eq|].
  split; [apply category_figure_eq|].
  assert (len (names (entries r)) = len (entries r)) as Hnames.
  { unfold len, names. by rewrite length_fmap. }
  cbn [figsize ns_per_op_figure allocs_figure comparison_chart delta_chart
       allocation_chart category_chart fst snd]. rewrite !Hnames.
  set (n := len (entries r)). set (k := len (cat_names (entries r))).
  destruct (py_max_threshold (qc 14) (qc 0.8) 17 n) as [H1a H1b]; [done..|].
  destruct (py_max_threshold (qc 6) (qc 0.35) 17 n) as [H2a H2b]; [done..|].
  destruct (py_max_threshold (qc 6) (qc 0.3) 20 n) as [H3a H3b]; [done..|].
  destruct (py_max_threshold (qc 4) (qc 0.6) 6 k) as [H4a H4b]; [done..|].
  split_and!; try done.
  - intros Hn. by rewrite H1a, H2a.
  - intros Hn. destruct (H1b Hn) as [-> _]. by destruct (H2b Hn) as [-> _].
  - intros Hn. by destruct (H3b Hn) as [-> _].
  - intros Hk. by destruct (H4b Hk) as [-> _].
Qed.

(** ** The rollup covers every entry once *)

Lemma dict_keys_set {V} (d : dict.t V) k v :
  dict.keys (dict.set d k v)
  = if decide (k ∈ dict.keys d) then dict.keys d else (dict.keys d ++ [k])%list.
Proof.
  unfold dict.keys. induction d as [|[k' v'] d IH].
  - destruct (decide (k ∈ ([] : dict.t V).*1)) as [Hin|_]; [|done].
    by apply elem_of_nil in Hin.
  - cbn [dict.set]. destruct (decide (k' = k)) as [->|Hne].
    + destruct (decide (k ∈ ((k, v') :: d).*1)) as [_|Hnin]; [done|].
      destruct Hnin. left.
    + rewrite fmap_cons, IH. cbn [fst].
      destruct (decide (k ∈ d.*1)) as [Hin|Hnin];
        destruct (decide (k ∈ ((k', v') :: d).*1)) as [Hin'|Hnin']; try done.
      * destruct Hnin'. by right.
      * apply elem_of_cons in Hin' as [?|?]; [simpl in *; congruence|done].
Qed.

Lemma dict_values_set_incr (d : dict.t Z) k :
  foldr Z.add 0%Z (dict.set d k (default 0%Z (dict.get d k) + 1)%Z).*2
  = (foldr Z.add 0%Z d.*2 + 1)%Z.
Proof.
  induction d as [|[k' v'] d IH]; [done|].
  cbn [dict.set dict.get].
  destruct (decide (k' = k)) as [->|Hne]; csimpl; [lia|].
  rewrite IH. lia.
Qed.

Lemma partition_by_category (l : list string) (es : list Entry) :
  NoDup l → (∀ e, e ∈ es → category e ∈ l) →
  concat ((λ c, filter (λ e, category e = c) es) <$> l) ≡ₚ es.
Proof.
  intros Hl. revert es. induction Hl as [|c l Hc Hl IH]; intros es Hes.
  - destruct es as [|e es]; [done|].
    destruct (not_elem_of_nil (category e)). apply Hes. left.
  - csimpl.
    transitivity (filter (λ e, category e = c) es
                  ++ filter (λ e, ¬ category e = c) es)%list;
      [|apply filter_app_complement].
    apply Permutation_app_head.
    rewrite <-(IH (filter (λ e, ¬ category e = c) es)).
    + apply reflexive_eq. f_equal. apply list_fmap_ext. intros i c' Hc'.
      symmetry. apply list_filter_filter_l.
      intros e He1 He2. apply Hc. rewrite <-He2, He1.
      by eapply list_elem_of_lookup_2.
    + intros e [Hne He]%list_elem_of_filter.
      pose proof (Hes e He) as Hin. by apply elem_of_cons in Hin as [?|?].
Qed.

Lemma concat_fmap_fmap {A B} (f : A → B) (ll : list (list A)) :
  concat ((λ l : list A, f <$> l) <$> ll) = f <$> concat ll.
Proof. induction ll as [|l ll IH]; csimpl; [done|]. by rewrite fmap_app, IH. Qed.


Lemma dict_NoDup_get {V} (d : dict.t V) k v :
  NoDup (dict.keys d) → (k, v) ∈ d → dict.get d k = Some v.
Proof.
  unfold dict.keys. induction d as [|[k' v'] d IH]; csimpl.
  { by intros _ ?%elem_of_nil. }
  rewrite NoDup_cons. intros [Hk' Hd] [[= -> ->]|Hin]%elem_of_cons.
  - by rewrite decide_True.
  - rewrite decide_False; [by apply IH|].
    intros ->. apply Hk', list_elem_of_fmap. by exists (k, v).
Qed.

(** What the loop leaves in [cat_changes]: under every key, the percent
    changes of the entries of this category, in input order. *)
Lemma cat_changes_eq es :
  cat_changes es = (λ c, (c, members c es)) <$> dict.keys (cat_changes es).
Proof.
  unfold dict.keys. rewrite <-list_fmap_compose.
  rewrite <-(list_fmap_id (cat_changes es)) at 1.
  apply list_fmap_ext. intros i [c vs] Hi. simpl. f_equal.
  apply list_elem_of_lookup_2, (dict_NoDup_get _ _ _ (rollup_keys_NoDup es)) in Hi.
  destruct (rollup_get es c) as [Hget _]. rewrite Hi in Hget.
  destruct (decide (members c es = [])); congruence.
Qed.

(** X9. The aggregation loses and duplicates nothing: the lists stored
    in [cat_changes], taken together, are the percent changes of all
    entries, the list under a key being those of the entries of this
    category in input order; the two dictionaries of the loop have the
    same keys in the same order, each once; and the counts add up to
    the number of entries. *)
Theorem rollup_partitions_entries (es : list Entry) :
  concat (cat_changes es).*2 ≡ₚ ns_per_op_change_pct <$> es
  ∧ (∀ c vs, dict.get (cat_changes es) c = Some vs →
             vs ≠ []
             ∧ vs = ns_per_op_change_pct <$> filter (λ e, category e = c) es)
  ∧ NoDup (dict.keys (cat_changes es))
  ∧ dict.keys (cat_counts es) = dict.keys (cat_changes es)
  ∧ foldr Z.add 0%Z (cat_counts es).*2 = Z.of_nat (length es).
Proof.
  split_and!.
  - rewrite cat_changes_eq at 1. rewrite <-list_fmap_compose.
    change (concat ((λ c, ns_per_op_change_pct <$> filter (λ e, category e = c) es)
                      <$> dict.keys (cat_changes es))
            ≡ₚ ns_per_op_change_pct <$> es).
    assert (concat ((λ c, ns_per_op_change_pct <$> filter (λ e, category e = c) es)
                      <$> dict.keys (cat_changes es))
            = ns_per_op_change_pct
                <$> concat ((λ c, filter (λ e, category e = c) es)
                              <$> dict.keys (cat_changes es)))
      as ->.
    { by rewrite <-concat_fmap_fmap, <-list_fmap_compose. }
    apply fmap_Permutation, partition_by_category; [apply rollup_keys_NoDup|].
    intros e He. apply rollup_keys. unfold categories.
    apply list_elem_of_fmap. eauto.
  - intros c vs Hget. destruct (rollup_get es c) as [Hc _]. rewrite Hget in Hc.
    destruct (decide (members c es = [])) as [|Hne]; [done|].
    injection Hc as ->. done.
  - apply rollup_keys_NoDup.
  - unfold cat_counts, cat_changes.
    induction es as [|e es IH] using rev_ind; [done|].
    rewrite rollup_snoc. unfold rollup_step. simpl.
    by rewrite !dict_keys_set, IH.
  - unfold cat_counts.
    induction es as [|e es IH] using rev_ind; [done|].
    rewrite rollup_snoc. unfold rollup_step. simpl.
    rewrite dict_values_set_incr, IH, length_app. simpl. lia.
Qed.

(** ** The order of the sorted chart *)

Lemma imap_index {A B} (g : nat → B) (l : list A) :
  imap (λ i _, g i) l = g <$> seq 0 (length l).
Proof.
  revert g. induction l as [|x l IH]; intros g; [done|].
  cbn [imap length seq fmap list_fmap]. f_equal.
  rewrite <-fmap_S_seq, <-list_fmap_compose. apply (IH (g ∘ S)).
Qed.

(** [sorted_indices] holds every index of the input once. *)
Lemma sorted_indices_perm es : (sorted_entries es).*1 ≡ₚ seqZ 0 (Z.of_nat (length es)).
Proof.
  unfold sorted_entries. rewrite sort_decorated_perm. unfold decorated_entries.
  rewrite <-list_fmap_compose, fmap_imap.
  change (imap (λ i _, Z.of_nat i) es ≡ₚ seqZ 0 (Z.of_nat (length es))).
  rewrite imap_index. unfold seqZ. rewrite Nat2Z.id.
  apply reflexive_eq, list_fmap_ext. intros i x _. lia.
Qed.

Lemma sorted_names_perm es :
  (λ x : Z * Entry, display_name x.2) <$> sorted_entries es ≡ₚ display_name <$> es.
Proof.
  rewrite <-(sorted_entries_perm es) at 2. by rewrite <-list_fmap_compose.
Qed.

(** X14. The bars of chart 2 are the input's (display name, change)
    pairs, one bar per entry, handed to [barh] so that the changes
    ascend: each value is at most the next one, whatever the order of
    the input.  When the display names are pairwise distinct the bars
    are drawn on consecutive rows in this order. *)
Theorem delta_bars_sorted_ascending (r : Report) :
  ∃ fig sn vs colors rest,
    pct_change_figure r = Some fig
    ∧ axes fig = [barh_labelled sn vs colors (qc 0.85) :: rest]
    ∧ zip sn vs ≡ₚ (λ e, (str.replace "Benchmark" "" (name e), ns_per_op_change_pct e))
                     <$> entries r
    ∧ length sn = length (entries r)
    ∧ length vs = length (entries r)
    ∧ (∀ i v w, vs !! i = Some v → vs !! S i = Some w → v ≤ w)
    ∧ (NoDup ((λ e, str.replace "Benchmark" "" (name e)) <$> entries r) →
       category_rows sn = seq 0 (length (entries r))).
Proof.
  eexists _, _, _, _, _. split; [apply pct_change_figure_eq|]. split; [done|].
  split_and!.
  - rewrite zip_fmap_same.
    rewrite <-(sorted_entries_perm (entries r)) at 2.
    by rewrite <-list_fmap_compose.
  - by rewrite length_fmap, sorted_entries_length.
  - by rewrite length_fmap, sorted_entries_length.
  - intros i v w. rewrite !list_lookup_fmap.
    destruct (sorted_entries _ !! i) as [x|] eqn:Hi; [|done].
    destruct (sorted_entries _ !! S i) as [y|] eqn:Hj; [|done].
    intros [= <-] [= <-].
    by destruct (sorted_entries_order _ i (S i) x y (Nat.lt_succ_diag_r i) Hi Hj).
  - intros Hnd. rewrite category_rows_NoDup.
    + by rewrite length_fmap, sorted_entries_length.
    + eapply NoDup_Permutation_proper; [apply sorted_names_perm|exact Hnd].
Qed.

Lemma delta_bars_sorted_ascending_witness :
  ∃ fig sn vs colors rest,
    pct_change_figure sample_report = Some fig
    ∧ axes fig = [barh_labelled sn vs colors (qc 0.85) :: rest]
    ∧ zip sn vs ≡ₚ (λ e, (str.replace "Benchmark" "" (name e), ns_per_op_change_pct e))
                     <$> entries sample_report
    ∧ length sn = length (entries sample_report)
    ∧ length vs = length (entries sample_report)
    ∧ (∀ i v w, vs !! i = Some v → vs !! S i = Some w → v ≤ w)
    ∧ (NoDup ((λ e, str.replace "Benchmark" "" (name e)) <$> entries sample_report) →
       category_rows sn = seq 0 (length (entries sample_report))).
Proof. apply (delta_bars_sorted_ascending sample_report). Defined.

(** X15. The sort behind chart 2 is a stable rearrangement of the
    entries: [sorted_indices] holds every index of the input once, the
    bar at a position carries the display name and the change of the
    entry whose index stands there, and of two entries with the same
    change the one that comes first in [entries] is handed to [barh]
    first. *)
Theorem delta_sort_stable (es : list Entry) :
  ∃ ix sn vs,
    sorted_indices es = Some ix
    ∧ sorted_names es = Some sn
    ∧ sorted_changes es = Some vs
    ∧ ix ≡ₚ seqZ 0 (Z.of_nat (length es))
    ∧ (∀ p i, ix !! p = Some i →
         ∃ e, (0 ≤ i)%Z ∧ es !! Z.to_nat i = Some e
              ∧ sn !! p = Some (str.replace "Benchmark" "" (name e))
              ∧ vs !! p = Some (ns_per_op_change_pct e))
    ∧ ∀ p q i j e e',
        (p < q)%nat → ix !! p = Some i → ix !! q = Some j →
        es !! Z.to_nat i = Some e → es !! Z.to_nat j = Some e' →
        ns_per_op_change_pct e = ns_per_op_change_pct e' →
        (i < j)%Z.
Proof.
  eexists _, _, _. split; [apply sorted_indices_eq|].
  split; [apply sorted_names_eq|]. split; [apply sorted_changes_eq|].
  split; [apply sorted_indices_perm|]. split.
  - intros p i. rewrite !list_lookup_fmap.
    destruct (sorted_entries es !! p) as [[i' e]|] eqn:Hp; [|done].
    intros [= <-]. exists e.
    apply list_elem_of_lookup_2, sorted_entries_elem in Hp as [? ?]. done.
  - intros p q i j e e' Hpq. rewrite !list_lookup_fmap.
    destruct (sorted_entries _ !! p) as [[i' x]|] eqn:Hp; [|done].
    destruct (sorted_entries _ !! q) as [[j' y]|] eqn:Hq; [|done].
    intros [= <-] [= <-] He He' Heq.
    destruct (sorted_entries_order _ _ _ _ _ Hpq Hp Hq) as [_ Htie].
    apply list_elem_of_lookup_2, sorted_entries_elem in Hp as [_ Hx].
    apply list_elem_of_lookup_2, sorted_entries_elem in Hq as [_ Hy].
    simpl in *. apply Htie. congruence.
Qed.

(** ** Independence of the input order *)






(** ** Display names only lose characters *)

Lemma replace_from_length (old : string) (k : nat) (s : string) :
  (String.length (str.replace_from old "" k s) ≤ String.length s)%nat.
Proof.
  revert k. induction s as [|c s IH]; intros k; [done|].
  cbn [str.replace_from]. destruct k as [|k].
  - destruct (String.prefix old (String c s)).
    + change ("" +:+ ?x) with x. specialize (IH (String.length old - 1)%nat).
      simpl. lia.
    + specialize (IH 0%nat). simpl. lia.
  - specialize (IH k). simpl. lia.
Qed.

Lemma string_app_length (a b : string) :
  String.length (a +:+ b) = (String.length a + String.length b)%nat.
Proof. induction a as [|c a IH]; [done|]. rewrite app_cons. simpl. by rewrite IH. Qed.

Lemma replace_match_length (old s : string) :
  String.prefix old s = true → old ≠ "" →
  (String.length (str.replace old "" s) + String.length old ≤ String.length s)%nat.
Proof.
  intros [post ->]%prefix_inv Hold. rewrite replace_prefix by done.
  change ("" +:+ ?x) with x. rewrite string_app_length.
  destruct old as [|c old]; [done|]. unfold str.replace.
  pose proof (replace_from_length (String c old) 0 post). lia.
Qed.

Lemma replace_occurs_length (old s : string) :
  old ≠ "" → occurs old s →
  (String.length (str.replace old "" s) + String.length old ≤ String.length s)%nat.
Proof.
  intros Hold. induction s as [|c s IH]; intros (pre & post & Hs).
  - destruct pre; [|done]. by destruct old.
  - destruct (String.prefix old (String c s)) eqn:Hpre.
    + by apply replace_match_length.
    + rewrite replace_no_match by done.
      destruct pre as [|c' pre].
      * rewrite Hs in Hpre. change ("" +:+ ?x) with x in Hpre.
        by rewrite prefix_app in Hpre.
      * rewrite app_cons in Hs. injection Hs as -> ->.
        assert (occurs old (pre +:+ old +:+ post)) as Hocc by (by eexists _, _).
        specialize (IH Hocc). simpl. lia.
Qed.

(** X10. Building the display name only removes characters: it is never
    longer than the name; when "Benchmark" occurs in the name it is at
    least nine characters shorter, and it equals the name exactly when
    the token does not occur. *)
Theorem display_name_only_shortens (e : Entry) :
  (String.length (display_name e) ≤ String.length (name e))%nat
  ∧ (occurs "Benchmark" (name e) →
     (String.length (display_name e) + 9 ≤ String.length (name e))%nat)
  ∧ (display_name e = name e ↔ ¬ occurs "Benchmark" (name e)).
Proof.
  unfold display_name. split_and!.
  - apply (replace_from_length "Benchmark" 0).
  - intros Hocc. by apply (replace_occurs_length "Benchmark").
  - split.
    + intros Heq Hocc.
      pose proof (replace_occurs_length "Benchmark" (name e) ltac:(done) Hocc) as Hlen.
      rewrite Heq in Hlen. simpl in Hlen. lia.
    + intros Hno. apply replace_absent; [done|].
      intros pre post Heq. apply Hno. by exists pre, post.
Qed.
